(** * The service collector of windows_exporter (collector/service.go)

    A shallow embedding of [serviceCollector.collect] and of the tables it
    ranges over, followed by the properties of one collection pass.

    Conventions.
    - Go [string] is [string]; [uint32]/[uint] values are [N].
    - The gauge values are the [float64] constants [0.0] and [1.0]; both are
      integers, so a row carries its value as a [Z] ([0] or [1]).
    - A Go [error] is a message; [nil] is [None].
    - Operating-system calls ([mgr.Connect], [ListServices], [OpenService],
      [Config], [Query], [wmi.Query]) are answered by an explicit world that is
      an input of the pass.  The pass returns the trace of the calls it made
      and of the rows it sent on the channel, together with its Go result.
    - [for _, v := range m] over a Go map visits every entry once, in an order
      the runtime chooses.  The order is an input of the model; the theorems
      that depend on it assume it is a permutation of the entries.
    - [strings.ToLower] lowers an all-ASCII string itself and hands any other
      string to the Unicode case tables of the Go library.  The tables are an
      input of the model ([UnicodeTables]); every theorem holds for all of
      them, and the worked examples at the end use a fragment of them. *)

From Stdlib Require Import NArith ZArith Ascii String DecimalString DecimalN.
From stdpp Require Import base option list gmap strings.

Local Open Scope string_scope.
Local Open Scope list_scope.

(** ** Library functions *)

(** The lower-case form of one ASCII byte: ['A'..'Z'] go to ['a'..'z'], every
    other byte is kept. *)
Definition lower_byte (c : ascii) : ascii :=
  let n := N_of_ascii c in
  if ((65 <=? n) && (n <=? 90))%N then ascii_of_N (n + 32) else c.

Fixpoint lower_bytes (s : string) : string :=
  match s with
  | EmptyString => EmptyString
  | String c rest => String (lower_byte c) (lower_bytes rest)
  end.

(** No byte of the string is [utf8.RuneSelf] (0x80) or above. *)
Fixpoint isASCII (s : string) : bool :=
  match s with
  | EmptyString => true
  | String c rest => (N_of_ascii c <? 128)%N && isASCII rest
  end.

Fixpoint hasUpper (s : string) : bool :=
  match s with
  | EmptyString => false
  | String c rest =>
      let n := N_of_ascii c in
      ((65 <=? n) && (n <=? 90))%N || hasUpper rest
  end.

(** The part of the Go library that [strings.ToLower] falls back on:
    [MapToLower s] is [strings.Map(unicode.ToLower, s)], which decodes [s] as
    UTF-8 and lowers each rune by the Unicode case tables. *)
Class UnicodeTables := { MapToLower : string -> string }.

(** [strings.ToLower]: an all-ASCII string is returned as it is when it has no
    capital letter and lowered byte by byte otherwise; any other string goes
    through the Unicode tables. *)
Definition ToLower `{UnicodeTables} (s : string) : string :=
  if isASCII s then (if hasUpper s then lower_bytes s else s)
  else MapToLower s.

(** A fragment of the Unicode path, enough to evaluate examples: ASCII
    capitals and the two-byte capitals U+00C0..U+00DE (U+00D7, the
    multiplication sign, apart) are lowered; every other byte is kept. *)
Fixpoint lower_latin1 (s : string) : string :=
  match s with
  | EmptyString => EmptyString
  | String c1 tail =>
      match tail with
      | EmptyString => String (lower_byte c1) EmptyString
      | String c2 rest =>
          let n2 := N_of_ascii c2 in
          if ((N_of_ascii c1 =? 195) && (128 <=? n2) && (n2 <=? 158)
              && negb (n2 =? 151))%N
          then String c1 (String (ascii_of_N (n2 + 32)) (lower_latin1 rest))
          else String (lower_byte c1) (lower_latin1 tail)
      end
  end.

Definition sample_tables : UnicodeTables := {| MapToLower := lower_latin1 |}.

(** [strconv.FormatUint(n, 10)]. *)
Definition FormatUint (n : N) : string := NilEmpty.string_of_uint (N.to_uint n).

(** Reading a Go [map[K]string] at a key: the zero value [""] when absent. *)
Definition index `{Countable K} (m : gmap K string) (k : K) : string :=
  default "" (m !! k).

(** ** Data model *)

Definition error := string.

(** The four descriptors held by the collector, with their variable labels
    (from [NewserviceCollector]). *)
Inductive Desc := Information | State | StartMode | Status.

#[global] Instance Desc_eq_dec : EqDecision Desc.
Proof. solve_decision. Defined.

Definition variableLabels (d : Desc) : list string :=
  match d with
  | Information => ["name"; "display_name"; "process_id"; "run_as"]
  | State => ["name"; "state"]
  | StartMode => ["name"; "start_mode"]
  | Status => ["name"; "status"]
  end.

(** What [prometheus.MustNewConstMetric desc GaugeValue v labels...] builds. *)
Record Metric := MustNewConstMetric {
  desc : Desc;
  value : Z;
  labelValues : list string
}.

#[global] Instance Metric_eq_dec : EqDecision Metric.
Proof. solve_decision. Defined.

(** The first check of [MustNewConstMetric]: one value per variable label.
    (The library also rejects a label value that is not valid UTF-8; that
    second check is not part of this predicate.) *)
Definition label_count_ok (r : Metric) : bool :=
  bool_decide (length (labelValues r) = length (variableLabels (desc r))).

(** The value a row gives to a label name. *)
Fixpoint assoc (key : string) (names values : list string) : option string :=
  match names, values with
  | n :: names', v :: values' =>
      if decide (n = key) then Some v else assoc key names' values'
  | _, _ => None
  end.

Definition label (r : Metric) (key : string) : option string :=
  assoc key (variableLabels (desc r)) (labelValues r).

Module Win32_Service.
Record t := {
  DisplayName : string;
  Name : string;
  ProcessId : N;
  State : string;
  Status : string;
  StartMode : string;
  StartName : option string
}.
End Win32_Service.

(** The fields of [mgr.Config] and [svc.Status] that the collector reads. *)
Module mgr.
Record Config := {
  DisplayName : string;
  ServiceStartName : string;
  StartType : N
}.
End mgr.

Module svc.
Record Status := {
  State : N;
  ProcessId : N
}.
End svc.

(** Constants of golang.org/x/sys/windows (the values of winsvc.h/winnt.h). *)
Module windows.
Definition SERVICE_STOPPED : N := 1.
Definition SERVICE_START_PENDING : N := 2.
Definition SERVICE_STOP_PENDING : N := 3.
Definition SERVICE_RUNNING : N := 4.
Definition SERVICE_CONTINUE_PENDING : N := 5.
Definition SERVICE_PAUSE_PENDING : N := 6.
Definition SERVICE_PAUSED : N := 7.
Definition SERVICE_BOOT_START : N := 0.
Definition SERVICE_SYSTEM_START : N := 1.
Definition SERVICE_AUTO_START : N := 2.
Definition SERVICE_DEMAND_START : N := 3.
Definition SERVICE_DISABLED : N := 4.
End windows.

(** ** The tables *)

Definition allStates : list string :=
  [ "stopped"; "start pending"; "stop pending"; "running";
    "continue pending"; "pause pending"; "paused"; "unknown" ].

Definition apiStateValues : gmap N string :=
  list_to_map
    [ (windows.SERVICE_CONTINUE_PENDING, "continue pending");
      (windows.SERVICE_PAUSE_PENDING, "pause pending");
      (windows.SERVICE_PAUSED, "paused");
      (windows.SERVICE_RUNNING, "running");
      (windows.SERVICE_START_PENDING, "start pending");
      (windows.SERVICE_STOP_PENDING, "stop pending");
      (windows.SERVICE_STOPPED, "stopped") ].

Definition allStartModes : list string :=
  [ "boot"; "system"; "auto"; "manual"; "disabled" ].

Definition apiStartModeValues : gmap N string :=
  list_to_map
    [ (windows.SERVICE_AUTO_START, "auto");
      (windows.SERVICE_BOOT_START, "boot");
      (windows.SERVICE_DEMAND_START, "manual");
      (windows.SERVICE_DISABLED, "disabled");
      (windows.SERVICE_SYSTEM_START, "system") ].

Definition allStatuses : list string :=
  [ "ok"; "error"; "degraded"; "unknown"; "pred fail"; "starting";
    "stopping"; "service"; "stressed"; "nonrecover"; "no contact";
    "lost comm" ].

(** ** The collector, for any Unicode tables *)

Section Collector.

Context {unicode : UnicodeTables}.

(** ** Row emission *)

(** The indicator computed by every one-hot loop of the source:
    [isCurrentX := 0.0; if candidate == current { isCurrentX = 1.0 }]. *)
Definition isCurrent (candidate current : string) : Z :=
  if decide (candidate = current) then 1%Z else 0%Z.

(** *** The WMI branch (source lines 249-307), one [Win32_Service] entry. *)

Definition wmi_info_row (service : Win32_Service.t) : Metric :=
  let pid := FormatUint (Win32_Service.ProcessId service) in
  let runAs :=
    match Win32_Service.StartName service with
    | Some startName => startName
    | None => ""
    end in
  MustNewConstMetric Information 1
    [ ToLower (Win32_Service.Name service);
      Win32_Service.DisplayName service; pid; runAs ].

Definition wmi_state_rows (service : Win32_Service.t) : list Metric :=
  map (fun state =>
         MustNewConstMetric State
           (isCurrent state (ToLower (Win32_Service.State service)))
           [ ToLower (Win32_Service.Name service); state ])
      allStates.

Definition wmi_start_mode_rows (service : Win32_Service.t) : list Metric :=
  map (fun startMode =>
         MustNewConstMetric StartMode
           (isCurrent startMode (ToLower (Win32_Service.StartMode service)))
           [ ToLower (Win32_Service.Name service); startMode ])
      allStartModes.

Definition wmi_status_rows (service : Win32_Service.t) : list Metric :=
  map (fun status =>
         MustNewConstMetric Status
           (isCurrent status (ToLower (Win32_Service.Status service)))
           [ ToLower (Win32_Service.Name service); status ])
      allStatuses.

Definition wmi_service_rows (service : Win32_Service.t) : list Metric :=
  wmi_info_row service
    :: wmi_state_rows service
    ++ wmi_start_mode_rows service
    ++ wmi_status_rows service.

(** *** The API branch (source lines 190-240), one successfully queried
    service.  [stateOrder] and [startModeOrder] are the orders in which the two
    [range] loops visit [apiStateValues] and [apiStartModeValues]. *)

Definition api_info_row (service : string) (serviceConfig : mgr.Config)
    (serviceStatus : svc.Status) : Metric :=
  let pid := FormatUint (svc.ProcessId serviceStatus) in
  MustNewConstMetric Information 1
    [ ToLower service; mgr.DisplayName serviceConfig; pid;
      mgr.ServiceStartName serviceConfig ].

Definition api_state_rows (service : string) (serviceStatus : svc.Status)
    (stateOrder : list (N * string)) : list Metric :=
  map (fun entry =>
         let state := entry.2 in
         MustNewConstMetric State
           (isCurrent state (index apiStateValues (svc.State serviceStatus)))
           [ ToLower service; state ])
      stateOrder.

Definition api_start_mode_rows (service : string) (serviceConfig : mgr.Config)
    (startModeOrder : list (N * string)) : list Metric :=
  map (fun entry =>
         let startMode := entry.2 in
         MustNewConstMetric StartMode
           (isCurrent startMode
              (index apiStartModeValues (mgr.StartType serviceConfig)))
           [ ToLower service; startMode ])
      startModeOrder.

Definition api_status_rows (service : string) : list Metric :=
  map (fun status =>
         let isCurrentStatus := 0%Z in
         MustNewConstMetric Status isCurrentStatus [ ToLower service; status ])
      allStatuses.

Definition api_service_rows (service : string) (serviceConfig : mgr.Config)
    (serviceStatus : svc.Status)
    (stateOrder startModeOrder : list (N * string)) : list Metric :=
  api_info_row service serviceConfig serviceStatus
    :: api_state_rows service serviceStatus stateOrder
    ++ api_start_mode_rows service serviceConfig startModeOrder
    ++ api_status_rows service.

(** ** The world a pass runs in *)

(** One name returned by [ListServices], with what the three calls on it
    answer and the orders the runtime picks for its two map loops. *)
Record LiveService := {
  ls_name : string;
  ls_open : option error;            (* the error of OpenService, if any *)
  ls_config : error + mgr.Config;    (* serviceHandle.Config() *)
  ls_query : error + svc.Status;     (* serviceHandle.Query() *)
  ls_stateOrder : list (N * string);
  ls_startModeOrder : list (N * string)
}.

Record ServiceManager := {
  sm_connect : option error;               (* the error of mgr.Connect() *)
  sm_list : error + list LiveService       (* ListServices() *)
}.

(** [w_wmi whereClause] is the outcome of [wmi.Query(queryAllWhere(&dst,
    whereClause), &dst)]: the query text is built by a helper outside this
    file, so the world is asked by where-clause. *)
Record World := {
  w_mgr : ServiceManager;
  w_wmi : string -> error + list Win32_Service.t
}.

(** The two kingpin flags (package-level pointers in the source). *)
Record Flags := {
  serviceWhereClause : string;
  wmiDisabled : bool
}.

(** The collector keeps a copy of the where-clause; its four descriptors are
    the constants of [Desc]. *)
Record serviceCollector := {
  queryWhereClause : string
}.

Definition NewserviceCollector (flags : Flags) : serviceCollector :=
  {| queryWhereClause := serviceWhereClause flags |}.

(** ** Traces *)

Inductive Event :=
  | Connect (ok : bool)
  | Disconnect
  | ListServices (ok : bool)
  | OpenService (service : string) (ok : bool)
  | Config (service : string) (ok : bool)
  | Query (service : string) (ok : bool)
  | Close (service : string)
  | WmiQuery (whereClause : string) (ok : bool)
  | Send (row : Metric).

(** The rows pushed on the channel, in order. *)
Definition rows_of (tr : list Event) : list Metric :=
  omap (fun e => match e with Send row => Some row | _ => None end) tr.

(** Dropping the first occurrence of a handle from those that are held. *)
Fixpoint release (service : string) (held : list string) : list string :=
  match held with
  | [] => []
  | h :: held' => if decide (h = service) then held' else h :: release service held'
  end.

(** The service handles still open after a trace, given those held before. *)
Fixpoint open_handles (tr : list Event) (held : list string) : list string :=
  match tr with
  | [] => held
  | OpenService service true :: tr' => open_handles tr' (held ++ [service])
  | Close service :: tr' => open_handles tr' (release service held)
  | _ :: tr' => open_handles tr' held
  end.

(** Whether the manager connection is held after a trace. *)
Fixpoint connected (tr : list Event) (before : bool) : bool :=
  match tr with
  | [] => before
  | Connect true :: tr' => connected tr' true
  | Disconnect :: tr' => connected tr' false
  | _ :: tr' => connected tr' before
  end.

(** ** The pass *)

(** One iteration of the loop of lines 169-241. *)
Definition service_pass (s : LiveService) : list Event :=
  let service := ls_name s in
  match ls_open s with
  | Some _ => [ OpenService service false ]                      (* continue *)
  | None =>
      OpenService service true ::
      match ls_config s with
      | inl _ => [ Config service false; Close service ]         (* continue *)
      | inr serviceConfig =>
          Config service true ::
          match ls_query s with
          | inl _ => [ Query service false; Close service ]      (* continue *)
          | inr serviceStatus =>
              Query service true ::
              map Send
                (api_service_rows service serviceConfig serviceStatus
                   (ls_stateOrder s) (ls_startModeOrder s))
          end
      end
  end.

(** The result of [collect]: the descriptor (always [nil]) and the error. *)
Definition Result : Type := option Desc * option error.

(** The branch taken when [*wmiDisabled] holds (lines 156-241);
    [defer svcmgrConnection.Disconnect()] runs at each return after it. *)
Definition collect_api (m : ServiceManager) : list Event * Result :=
  match sm_connect m with
  | Some err => ([ Connect false ], (None, Some err))
  | None =>
      match sm_list m with
      | inl err =>
          ([ Connect true; ListServices false; Disconnect ], (None, Some err))
      | inr serviceList =>
          (Connect true :: ListServices true
             :: flat_map service_pass serviceList ++ [ Disconnect ],
           (None, None))
      end
  end.

(** The other branch (lines 244-307). *)
Definition collect_wmi (c : serviceCollector)
    (query : string -> error + list Win32_Service.t) : list Event * Result :=
  match query (queryWhereClause c) with
  | inl err => ([ WmiQuery (queryWhereClause c) false ], (None, Some err))
  | inr dst =>
      (WmiQuery (queryWhereClause c) true
         :: flat_map (fun service => map Send (wmi_service_rows service)) dst,
       (None, None))
  end.

Definition collect (flags : Flags) (c : serviceCollector) (w : World)
    : list Event * Result :=
  if wmiDisabled flags then collect_api (w_mgr w) else collect_wmi c (w_wmi w).

(** [Collect] logs a failure and hands the error to the caller. *)
Definition Collect (flags : Flags) (c : serviceCollector) (w : World)
    : list Event * option error :=
  let '(tr, (_, err)) := collect flags c w in (tr, err).

(** ** Sample inputs *)

Definition winrm_wmi : Win32_Service.t :=
  {| Win32_Service.DisplayName := "Windows Remote Management";
     Win32_Service.Name := "WinRM";
     Win32_Service.ProcessId := 1234;
     Win32_Service.State := "Running";
     Win32_Service.Status := "OK";
     Win32_Service.StartMode := "Auto";
     Win32_Service.StartName := Some "NetworkService" |}.

Definition odd_wmi : Win32_Service.t :=
  {| Win32_Service.DisplayName := "Odd";
     Win32_Service.Name := "Odd";
     Win32_Service.ProcessId := 0;
     Win32_Service.State := "Hibernating";
     Win32_Service.Status := "Fine";
     Win32_Service.StartMode := "Delayed";
     Win32_Service.StartName := None |}.

Definition eclair_wmi : Win32_Service.t :=
  {| Win32_Service.DisplayName := "Éclair";
     Win32_Service.Name := "ÉCLAIR";
     Win32_Service.ProcessId := 77;
     Win32_Service.State := "Stopped";
     Win32_Service.Status := "OK";
     Win32_Service.StartMode := "Manual";
     Win32_Service.StartName := Some "LocalSystem" |}.

Definition winrm_config : mgr.Config :=
  {| mgr.DisplayName := "Windows Remote Management";
     mgr.ServiceStartName := "NetworkService";
     mgr.StartType := windows.SERVICE_AUTO_START |}.

Definition winrm_status : svc.Status :=
  {| svc.State := windows.SERVICE_RUNNING; svc.ProcessId := 1234 |}.

Definition live (name : string) (open : option error)
    (config : error + mgr.Config) (query : error + svc.Status) : LiveService :=
  {| ls_name := name; ls_open := open; ls_config := config; ls_query := query;
     ls_stateOrder := map_to_list apiStateValues;
     ls_startModeOrder := map_to_list apiStartModeValues |}.

Definition winrm_live : LiveService :=
  live "WinRM" None (inr winrm_config) (inr winrm_status).

Definition locked_live : LiveService :=
  live "Locked" (Some "Access is denied.") (inr winrm_config) (inr winrm_status).

Definition noconfig_live : LiveService :=
  live "NoConfig" None (inl "config failed") (inr winrm_status).

Definition noquery_live : LiveService :=
  live "NoQuery" None (inr winrm_config) (inl "query failed").

Definition spooler_live : LiveService :=
  live "Spooler" None
    (inr {| mgr.DisplayName := "Print Spooler";
            mgr.ServiceStartName := "LocalSystem";
            mgr.StartType := windows.SERVICE_DEMAND_START |})
    (inr {| svc.State := windows.SERVICE_STOPPED; svc.ProcessId := 0 |}).

(** The pass over a manager that lists exactly [WinRM], running. *)
Definition winrm_manager : ServiceManager :=
  {| sm_connect := None; sm_list := inr [ winrm_live ] |}.

Definition api_flags : Flags := {| serviceWhereClause := ""; wmiDisabled := true |}.
Definition wmi_flags : Flags := {| serviceWhereClause := ""; wmiDisabled := false |}.

Definition sample_world : World :=
  {| w_mgr := winrm_manager; w_wmi := fun _ => inr [ winrm_wmi; odd_wmi ] |}.

Definition odd_config : mgr.Config :=
  {| mgr.DisplayName := "Odd"; mgr.ServiceStartName := ""; mgr.StartType := 9 |}.

Definition odd_status : svc.Status := {| svc.State := 0; svc.ProcessId := 0 |}.

Definition odd_live : LiveService := live "Odd" None (inr odd_config) (inr odd_status).

Definition mixed_manager : ServiceManager :=
  {| sm_connect := None;
     sm_list :=
       inr [ winrm_live; locked_live; noconfig_live; spooler_live; noquery_live ] |}.

Definition failing_wmi_world : World :=
  {| w_mgr := winrm_manager; w_wmi := fun _ => inl "Invalid query" |}.

(** ** Observations on rows and traces *)

Definition is_one (r : Metric) : Prop := value r = 1%Z.
Definition is_zero (r : Metric) : Prop := value r = 0%Z.
Definition of_desc (d : Desc) (r : Metric) : Prop := desc r = d.

#[global] Instance is_one_dec r : Decision (is_one r).
Proof. unfold is_one; apply _. Defined.
#[global] Instance is_zero_dec r : Decision (is_zero r).
Proof. unfold is_zero; apply _. Defined.
#[global] Instance of_desc_dec d r : Decision (of_desc d r).
Proof. unfold of_desc; apply _. Defined.

(** The shape shared by all one-hot loops: one row per candidate label. *)
Definition one_hot (d : Desc) (name current : string) (candidates : list string)
    : list Metric :=
  map (fun candidate =>
         MustNewConstMetric d (isCurrent candidate current) [ name; candidate ])
      candidates.

(** What a service contributes to the rows of an API pass. *)
Definition emitted_rows (s : LiveService) : list Metric :=
  match ls_open s, ls_config s, ls_query s with
  | None, inr serviceConfig, inr serviceStatus =>
      api_service_rows (ls_name s) serviceConfig serviceStatus
        (ls_stateOrder s) (ls_startModeOrder s)
  | _, _, _ => []
  end.

(** A service on which one of the three calls fails. *)
Definition service_fails (s : LiveService) : Prop :=
  is_Some (ls_open s) \/ (exists e, ls_config s = inl e) \/ (exists e, ls_query s = inl e).

(** The raw service names a pass works on. *)
Definition raw_names (flags : Flags) (c : serviceCollector) (w : World)
    : list string :=
  if wmiDisabled flags then
    match sm_connect (w_mgr w), sm_list (w_mgr w) with
    | None, inr serviceList => map ls_name serviceList
    | _, _ => []
    end
  else
    match w_wmi w (queryWhereClause c) with
    | inr dst => map Win32_Service.Name dst
    | inl _ => []
    end.

Definition named (raw : string) (r : Metric) : Prop :=
  label r "name" = Some (ToLower raw).

Inductive Backend := WMI | API.

#[global] Instance Backend_eq_dec : EqDecision Backend.
Proof. solve_decision. Defined.




(** A listed service on which the three calls all succeed. *)
Definition succeeded (s : LiveService) : bool :=
  match ls_open s, ls_config s, ls_query s with
  | None, inr _, inr _ => true
  | _, _, _ => false
  end.

(** The two [range] orders of a listed service are orders of the two maps. *)
Definition orders_ok (s : LiveService) : Prop :=
  ls_stateOrder s ≡ₚ map_to_list apiStateValues
  /\ ls_startModeOrder s ≡ₚ map_to_list apiStartModeValues.

(** Every [Close] of a trace is for a handle that is held when it happens. *)
Fixpoint closes_held (tr : list Event) (held : list string) : bool :=
  match tr with
  | [] => true
  | OpenService service true :: tr' => closes_held tr' (held ++ [service])
  | Close service :: tr' =>
      bool_decide (service ∈ held) && closes_held tr' (release service held)
  | _ :: tr' => closes_held tr' held
  end.

(** The names passed to [OpenService], in call order. *)
Definition opened_names (tr : list Event) : list string :=
  omap (fun e => match e with OpenService service _ => Some service | _ => None end) tr.

(** The where-clauses of the WMI queries of a trace, in call order. *)
Definition wmi_queries (tr : list Event) : list string :=
  omap (fun e => match e with WmiQuery whereClause _ => Some whereClause | _ => None end) tr.

(** The values a list of rows gives to a label name. *)
Definition label_values (key : string) (rows : list Metric) : list string :=
  omap (fun r => label r key) rows.

(** ** General facts about traces and one-hot loops *)

Section Traces.

Lemma rows_of_app (a b : list Event) : rows_of (a ++ b) = rows_of a ++ rows_of b.
Proof. apply omap_app. Qed.

Lemma rows_of_Send (rows : list Metric) : rows_of (map Send rows) = rows.
Proof. induction rows as [|r rows IH]; simpl; [done | by rewrite IH]. Qed.

Lemma rows_of_service_pass (s : LiveService) :
  rows_of (service_pass s) = emitted_rows s.
Proof.
  unfold service_pass, emitted_rows.
  destruct (ls_open s); [done |].
  destruct (ls_config s) as [|cfg]; [by destruct (ls_query s) |].
  destruct (ls_query s) as [|st]; [done |].
  change (rows_of (map Send (api_service_rows (ls_name s) cfg st
            (ls_stateOrder s) (ls_startModeOrder s)))
          = api_service_rows (ls_name s) cfg st
              (ls_stateOrder s) (ls_startModeOrder s)).
  apply rows_of_Send.
Qed.

Lemma rows_of_flat_service_pass (l : list LiveService) :
  rows_of (flat_map service_pass l) = flat_map emitted_rows l.
Proof.
  induction l as [|s l IH]; simpl; [done |].
  by rewrite rows_of_app, rows_of_service_pass, IH.
Qed.

Lemma rows_of_collect_api (m : ServiceManager) (l : list LiveService) :
  sm_connect m = None -> sm_list m = inr l ->
  rows_of (collect_api m).1 = flat_map emitted_rows l.
Proof.
  intros Hc Hl. unfold collect_api. rewrite Hc, Hl. simpl.
  rewrite rows_of_app, rows_of_flat_service_pass. simpl. apply app_nil_r.
Qed.

Lemma rows_of_flat_wmi (dst : list Win32_Service.t) :
  rows_of (flat_map (fun service => map Send (wmi_service_rows service)) dst)
  = flat_map wmi_service_rows dst.
Proof.
  induction dst as [|s dst IH]; [done |].
  cbn [flat_map]. by rewrite rows_of_app, rows_of_Send, IH.
Qed.

Lemma rows_of_collect_wmi (c : serviceCollector) query (dst : list Win32_Service.t) :
  query (queryWhereClause c) = inr dst ->
  rows_of (collect_wmi c query).1 = flat_map wmi_service_rows dst.
Proof.
  intros Hq. unfold collect_wmi. rewrite Hq. apply rows_of_flat_wmi.
Qed.

Lemma emitted_rows_fails (s : LiveService) : service_fails s -> emitted_rows s = [].
Proof.
  unfold emitted_rows. intros [[e He] | [[e He] | [e He]]]; rewrite He; [done | |].
  - by destruct (ls_open s).
  - by destruct (ls_open s), (ls_config s).
Qed.

End Traces.

Lemma isCurrent_same (x : string) : isCurrent x x = 1%Z.
Proof. unfold isCurrent. by case_decide. Qed.

Lemma isCurrent_other (x y : string) : x <> y -> isCurrent x y = 0%Z.
Proof. unfold isCurrent. by case_decide. Qed.

Section OneHot.

Variables (d : Desc) (name current : string).

Lemma one_hot_cons y l :
  one_hot d name current (y :: l)
  = MustNewConstMetric d (isCurrent y current) [ name; y ]
      :: one_hot d name current l.
Proof. reflexivity. Qed.

Lemma one_hot_length l : length (one_hot d name current l) = length l.
Proof. apply length_map. Qed.

Lemma one_hot_miss l :
  current ∉ l -> Forall is_zero (one_hot d name current l).
Proof.
  induction l as [|y l IH]; intros Hnin; simpl; constructor.
  - unfold is_zero, isCurrent; simpl. case_decide; [| done].
    subst. exfalso. apply Hnin. left.
  - apply IH. intros Hin. apply Hnin. by right.
Qed.

Lemma filter_is_one_zero (rows : list Metric) :
  Forall is_zero rows -> filter is_one rows = [].
Proof.
  induction 1 as [|r rows Hr _ IH]; [done |].
  rewrite filter_cons_False; [done |].
  unfold is_one, is_zero in *. lia.
Qed.

Lemma filter_is_zero_zero (rows : list Metric) :
  Forall is_zero rows -> filter is_zero rows = rows.
Proof.
  induction 1 as [|r rows Hr _ IH]; [done |].
  rewrite filter_cons_True by done. by rewrite IH.
Qed.

Lemma one_hot_hit l :
  NoDup l -> current ∈ l ->
  filter is_one (one_hot d name current l)
    = [ MustNewConstMetric d 1 [ name; current ] ]
  /\ S (length (filter is_zero (one_hot d name current l))) = length l.
Proof.
  induction 1 as [|y l Hy Hnd IH]; intros Hin; [by apply elem_of_nil in Hin |].
  rewrite one_hot_cons. destruct (decide (y = current)) as [-> | Hyc].
  - rewrite isCurrent_same.
    rewrite filter_cons_True by done.
    rewrite filter_cons_False by (unfold is_zero; simpl; lia).
    pose proof (one_hot_miss l Hy) as Hz.
    rewrite (filter_is_one_zero _ Hz), (filter_is_zero_zero _ Hz).
    by rewrite one_hot_length.
  - rewrite isCurrent_other by done.
    apply elem_of_cons in Hin as [-> | Hin]; [done |].
    destruct (IH Hin) as [IH1 IH0].
    rewrite filter_cons_False by (unfold is_one; simpl; lia).
    rewrite filter_cons_True by done.
    simpl. by rewrite IH1, IH0.
Qed.

End OneHot.

(** ** Facts about the tables *)

Lemma NoDup_allStates : NoDup allStates.
Proof. apply (bool_decide_unpack _). by vm_compute. Qed.

Lemma NoDup_allStartModes : NoDup allStartModes.
Proof. apply (bool_decide_unpack _). by vm_compute. Qed.

Lemma NoDup_allStatuses : NoDup allStatuses.
Proof. apply (bool_decide_unpack _). by vm_compute. Qed.

(** Ranging over a Go map of labels in any order. *)
Section Range.

Variable m : gmap N string.
Variable order : list (N * string).
Hypothesis Horder : order ≡ₚ map_to_list m.

Lemma range_values : map snd order ≡ₚ map snd (map_to_list m).
Proof. by apply Permutation_map. Qed.

Lemma range_length : length order = size m.
Proof. rewrite Horder. apply length_map_to_list. Qed.

Lemma range_NoDup : NoDup (map snd (map_to_list m)) -> NoDup (map snd order).
Proof. intros Hnd. by rewrite range_values. Qed.

Lemma range_lookup k v : m !! k = Some v -> v ∈ map snd order.
Proof.
  intros Hk. apply elem_of_map_to_list in Hk. rewrite <- Horder in Hk.
  apply list_elem_of_In, in_map_iff. exists (k, v).
  split; [done | by apply list_elem_of_In].
Qed.

Lemma range_absent v : v ∉ map snd (map_to_list m) -> v ∉ map snd order.
Proof. intros Hv. by rewrite range_values. Qed.

End Range.

Lemma apiStateValues_labels :
  map snd (map_to_list apiStateValues)
  = [ "pause pending"; "running"; "start pending"; "continue pending";
      "paused"; "stop pending"; "stopped" ].
Proof. by vm_compute. Qed.

Lemma apiStartModeValues_labels :
  map snd (map_to_list apiStartModeValues)
  = [ "disabled"; "auto"; "manual"; "system"; "boot" ].
Proof. by vm_compute. Qed.

(** ** The rows of one service, by descriptor *)

Lemma filter_desc_all d (rows : list Metric) :
  Forall (of_desc d) rows -> filter (of_desc d) rows = rows.
Proof.
  induction 1 as [|r rows Hr _ IH]; [done |].
  rewrite filter_cons_True by done. by rewrite IH.
Qed.

Lemma filter_desc_none d (rows : list Metric) :
  Forall (fun r => desc r <> d) rows -> filter (of_desc d) rows = [].
Proof.
  induction 1 as [|r rows Hr _ IH]; [done |].
  by rewrite filter_cons_False.
Qed.

Lemma elem_of_map {A B} (f : A -> B) (l : list A) (y : B) :
  y ∈ map f l <-> exists x, f x = y /\ x ∈ l.
Proof.
  rewrite list_elem_of_In, in_map_iff.
  split; intros (x & Hx & Hin); exists x; by rewrite list_elem_of_In in *.
Qed.

Lemma Forall_desc_map {A} (f : A -> Metric) (l : list A) (P : Desc -> Prop) :
  (forall x, P (desc (f x))) -> Forall (fun r => P (desc r)) (map f l).
Proof.
  intros Hf. apply Forall_forall. intros r Hr.
  apply elem_of_map in Hr as (x & <- & _). apply Hf.
Qed.

Lemma api_state_rows_one_hot service serviceStatus stateOrder :
  api_state_rows service serviceStatus stateOrder
  = one_hot State (ToLower service)
      (index apiStateValues (svc.State serviceStatus)) (map snd stateOrder).
Proof. unfold api_state_rows, one_hot. by rewrite List.map_map. Qed.

Lemma api_start_mode_rows_one_hot service serviceConfig startModeOrder :
  api_start_mode_rows service serviceConfig startModeOrder
  = one_hot StartMode (ToLower service)
      (index apiStartModeValues (mgr.StartType serviceConfig))
      (map snd startModeOrder).
Proof. unfold api_start_mode_rows, one_hot. by rewrite List.map_map. Qed.

(** Splitting the rows of a service by descriptor: each loop contributes
    the rows of its own descriptor and no others. *)
Ltac split_by_desc :=
  rewrite ?filter_app;
  repeat match goal with
  | |- context [ filter (of_desc ?d) (map ?f ?l) ] =>
      first
        [ rewrite (filter_desc_all d (map f l))
            by (apply (Forall_desc_map f l (fun x => x = d)); done)
        | rewrite (filter_desc_none d (map f l))
            by (apply (Forall_desc_map f l (fun x => x <> d)); done) ]
  end;
  rewrite ?app_nil_r; try done.

Section ByDesc.

Variable service : Win32_Service.t.

Lemma wmi_rows_Information :
  filter (of_desc Information) (wmi_service_rows service) = [ wmi_info_row service ].
Proof.
  unfold wmi_service_rows, wmi_state_rows, wmi_start_mode_rows, wmi_status_rows.
  rewrite filter_cons_True by done. f_equal; try split_by_desc.
Qed.

Lemma wmi_rows_State :
  filter (of_desc State) (wmi_service_rows service) = wmi_state_rows service.
Proof.
  unfold wmi_service_rows, wmi_state_rows, wmi_start_mode_rows, wmi_status_rows.
  rewrite filter_cons_False by done. split_by_desc.
Qed.

Lemma wmi_rows_StartMode :
  filter (of_desc StartMode) (wmi_service_rows service) = wmi_start_mode_rows service.
Proof.
  unfold wmi_service_rows, wmi_state_rows, wmi_start_mode_rows, wmi_status_rows.
  rewrite filter_cons_False by done. split_by_desc.
Qed.

Lemma wmi_rows_Status :
  filter (of_desc Status) (wmi_service_rows service) = wmi_status_rows service.
Proof.
  unfold wmi_service_rows, wmi_state_rows, wmi_start_mode_rows, wmi_status_rows.
  rewrite filter_cons_False by done. split_by_desc.
Qed.

Variables (name : string) (cfg : mgr.Config) (st : svc.Status).
Variables (stateOrder startModeOrder : list (N * string)).

Let rows := api_service_rows name cfg st stateOrder startModeOrder.

Lemma api_rows_Information :
  filter (of_desc Information) rows = [ api_info_row name cfg st ].
Proof.
  unfold rows, api_service_rows, api_state_rows, api_start_mode_rows, api_status_rows.
  rewrite filter_cons_True by done. f_equal. split_by_desc.
Qed.

Lemma api_rows_State :
  filter (of_desc State) rows = api_state_rows name st stateOrder.
Proof.
  unfold rows, api_service_rows, api_state_rows, api_start_mode_rows, api_status_rows.
  rewrite filter_cons_False by done. split_by_desc.
Qed.

Lemma api_rows_StartMode :
  filter (of_desc StartMode) rows = api_start_mode_rows name cfg startModeOrder.
Proof.
  unfold rows, api_service_rows, api_state_rows, api_start_mode_rows, api_status_rows.
  rewrite filter_cons_False by done. split_by_desc.
Qed.

Lemma api_rows_Status :
  filter (of_desc Status) rows = api_status_rows name.
Proof.
  unfold rows, api_service_rows, api_state_rows, api_start_mode_rows, api_status_rows.
  rewrite filter_cons_False by done. split_by_desc.
Qed.

End ByDesc.

(** ** One-hot state rows *)

Lemma wmi_state_rows_one_hot (service : Win32_Service.t) :
  wmi_state_rows service
  = one_hot State (ToLower (Win32_Service.Name service))
      (ToLower (Win32_Service.State service)) allStates.
Proof. reflexivity. Qed.

Lemma wmi_start_mode_rows_one_hot (service : Win32_Service.t) :
  wmi_start_mode_rows service
  = one_hot StartMode (ToLower (Win32_Service.Name service))
      (ToLower (Win32_Service.StartMode service)) allStartModes.
Proof. reflexivity. Qed.

Lemma wmi_status_rows_one_hot (service : Win32_Service.t) :
  wmi_status_rows service
  = one_hot Status (ToLower (Win32_Service.Name service))
      (ToLower (Win32_Service.Status service)) allStatuses.
Proof. reflexivity. Qed.

Lemma api_state_order_NoDup (order : list (N * string)) :
  order ≡ₚ map_to_list apiStateValues -> NoDup (map snd order).
Proof.
  intros Ho. apply (range_NoDup _ _ Ho). rewrite apiStateValues_labels.
  apply (bool_decide_unpack _). by vm_compute.
Qed.

Lemma api_start_mode_order_NoDup (order : list (N * string)) :
  order ≡ₚ map_to_list apiStartModeValues -> NoDup (map snd order).
Proof.
  intros Ho. apply (range_NoDup _ _ Ho). rewrite apiStartModeValues_labels.
  apply (bool_decide_unpack _). by vm_compute.
Qed.

(** C1 (amended).  WMI branch: when the lower-cased raw state is one of
    [allStates], the service's state rows are eight, exactly one carries 1.0
    (the one labelled with that state) and the other seven carry 0.0.
    API branch: when the raw state code is a key of [apiStateValues], the
    service's state rows are seven (one per entry of that map, none labelled
    [unknown]), exactly one carries 1.0 (the one labelled with the mapped
    state) and the other six carry 0.0. *)
Theorem state_rows_one_hot :
  (forall service : Win32_Service.t,
      ToLower (Win32_Service.State service) ∈ allStates ->
      let rows := filter (of_desc State) (wmi_service_rows service) in
      filter is_one rows
        = [ MustNewConstMetric State 1
              [ ToLower (Win32_Service.Name service);
                ToLower (Win32_Service.State service) ] ]
      /\ length (filter is_zero rows) = 7
      /\ length rows = 8)
  /\ (forall (name : string) (cfg : mgr.Config) (st : svc.Status)
        (stateOrder startModeOrder : list (N * string)) (state : string),
      stateOrder ≡ₚ map_to_list apiStateValues ->
      apiStateValues !! svc.State st = Some state ->
      let rows :=
        filter (of_desc State)
          (api_service_rows name cfg st stateOrder startModeOrder) in
      filter is_one rows = [ MustNewConstMetric State 1 [ ToLower name; state ] ]
      /\ length (filter is_zero rows) = 6
      /\ length rows = 7).
Proof.
  split.
  - intros service Hin rows. subst rows.
    rewrite wmi_rows_State, wmi_state_rows_one_hot.
    destruct (one_hot_hit State (ToLower (Win32_Service.Name service)) _ _
                NoDup_allStates Hin) as [H1 H0].
    rewrite one_hot_length. change (length allStates) with 8 in *.
    split; [done |]. split; [| done]. by injection H0.
  - intros name cfg st stateOrder startModeOrder state Ho Hk rows. subst rows.
    rewrite api_rows_State, api_state_rows_one_hot.
    unfold index. rewrite Hk. simpl.
    destruct (one_hot_hit State (ToLower name) state (map snd stateOrder))
      as [H1 H0].
    + by apply api_state_order_NoDup.
    + by apply (range_lookup _ _ Ho (svc.State st)).
    + rewrite one_hot_length, length_map in *.
      rewrite (range_length _ _ Ho) in *.
      change (size apiStateValues) with 7 in *.
      split; [done |]. split; [| done]. by injection H0.
Qed.

(** ** Rows per service *)

(** C2 (amended).  A service emitted by the WMI branch gets 26 rows: 1 info,
    8 state, 5 start_mode and 12 status rows.  A service emitted by the API
    branch gets 25 rows: 1 info, 7 state (one per entry of [apiStateValues]),
    5 start_mode and 12 status rows. *)
Theorem rows_per_service :
  (forall service : Win32_Service.t,
      let rows := wmi_service_rows service in
      length rows = 26
      /\ length (filter (of_desc Information) rows) = 1
      /\ length (filter (of_desc State) rows) = 8
      /\ length (filter (of_desc StartMode) rows) = 5
      /\ length (filter (of_desc Status) rows) = 12)
  /\ (forall (name : string) (cfg : mgr.Config) (st : svc.Status)
        (stateOrder startModeOrder : list (N * string)),
      stateOrder ≡ₚ map_to_list apiStateValues ->
      startModeOrder ≡ₚ map_to_list apiStartModeValues ->
      let rows := api_service_rows name cfg st stateOrder startModeOrder in
      length rows = 25
      /\ length (filter (of_desc Information) rows) = 1
      /\ length (filter (of_desc State) rows) = 7
      /\ length (filter (of_desc StartMode) rows) = 5
      /\ length (filter (of_desc Status) rows) = 12).
Proof.
  split.
  - intros service rows. subst rows.
    rewrite wmi_rows_Information, wmi_rows_State, wmi_rows_StartMode,
      wmi_rows_Status.
    by vm_compute.
  - intros name cfg st stateOrder startModeOrder Hs Hm rows. subst rows.
    rewrite api_rows_Information, api_rows_State, api_rows_StartMode,
      api_rows_Status.
    unfold api_service_rows, api_state_rows, api_start_mode_rows, api_status_rows.
    cbn [length]. rewrite !length_app, !length_map.
    rewrite (range_length _ _ Hs), (range_length _ _ Hm).
    by vm_compute.
Qed.

(** ** Raw values outside the tables *)

(** C3 (amended).  A raw state, start mode or status that is in no table does
    not fail the pass and does not change the number of rows; every row of
    that enumeration then carries 0.0 (no row, [unknown] included, is set).
    The result of a pass whose connection, listing or query succeeded is
    [nil], whatever the raw values are. *)
Theorem unmapped_value_all_zero :
  (forall service : Win32_Service.t,
      let rows := wmi_service_rows service in
      (ToLower (Win32_Service.State service) ∉ allStates ->
         Forall is_zero (filter (of_desc State) rows)
         /\ length (filter (of_desc State) rows) = 8)
      /\ (ToLower (Win32_Service.StartMode service) ∉ allStartModes ->
            Forall is_zero (filter (of_desc StartMode) rows)
            /\ length (filter (of_desc StartMode) rows) = 5)
      /\ (ToLower (Win32_Service.Status service) ∉ allStatuses ->
            Forall is_zero (filter (of_desc Status) rows)
            /\ length (filter (of_desc Status) rows) = 12))
  /\ (forall (name : string) (cfg : mgr.Config) (st : svc.Status)
        (stateOrder startModeOrder : list (N * string)),
      stateOrder ≡ₚ map_to_list apiStateValues ->
      startModeOrder ≡ₚ map_to_list apiStartModeValues ->
      let rows := api_service_rows name cfg st stateOrder startModeOrder in
      (apiStateValues !! svc.State st = None ->
         Forall is_zero (filter (of_desc State) rows)
         /\ length (filter (of_desc State) rows) = 7)
      /\ (apiStartModeValues !! mgr.StartType cfg = None ->
            Forall is_zero (filter (of_desc StartMode) rows)
            /\ length (filter (of_desc StartMode) rows) = 5))
  /\ (forall (c : serviceCollector) query (dst : list Win32_Service.t),
      query (queryWhereClause c) = inr dst ->
      (collect_wmi c query).2 = (None, None))
  /\ (forall (m : ServiceManager) (l : list LiveService),
      sm_connect m = None -> sm_list m = inr l ->
      (collect_api m).2 = (None, None)).
Proof.
  split; [| split; [| split]].
  - intros service rows. subst rows.
    rewrite wmi_rows_State, wmi_rows_StartMode, wmi_rows_Status.
    rewrite wmi_state_rows_one_hot, wmi_start_mode_rows_one_hot,
      wmi_status_rows_one_hot.
    rewrite !one_hot_length.
    split; [| split]; intros Hnin; (split; [by apply one_hot_miss | done]).
  - intros name cfg st stateOrder startModeOrder Hs Hm rows. subst rows.
    rewrite api_rows_State, api_rows_StartMode.
    rewrite api_state_rows_one_hot, api_start_mode_rows_one_hot.
    rewrite !one_hot_length, !length_map.
    rewrite (range_length _ _ Hs), (range_length _ _ Hm).
    split; intros Hk; unfold index; rewrite Hk; simpl; (split; [| done]).
    + apply one_hot_miss. apply (range_absent _ _ Hs).
      rewrite apiStateValues_labels. apply (bool_decide_unpack _). by vm_compute.
    + apply one_hot_miss. apply (range_absent _ _ Hm).
      rewrite apiStartModeValues_labels. apply (bool_decide_unpack _). by vm_compute.
  - intros c query dst Hq. unfold collect_wmi. by rewrite Hq.
  - intros m l Hc Hl. unfold collect_api. by rewrite Hc, Hl.
Qed.

(** ** Failures *)

(** C4.  In the API branch, a service on which [OpenService], [Config] or
    [Query] fails contributes no row; the pass still sends the rows of every
    other service (all the rows of each one that was queried successfully),
    and returns a [nil] error. *)
Theorem per_service_failure_skipped (m : ServiceManager)
    (before after : list LiveService) (s : LiveService) :
  sm_connect m = None ->
  sm_list m = inr (before ++ s :: after) ->
  service_fails s ->
  rows_of (service_pass s) = []
  /\ rows_of (collect_api m).1
     = flat_map emitted_rows before ++ flat_map emitted_rows after
  /\ (forall s' cfg st,
         s' ∈ before ++ after ->
         ls_open s' = None -> ls_config s' = inr cfg -> ls_query s' = inr st ->
         forall r,
           r ∈ api_service_rows (ls_name s') cfg st
                 (ls_stateOrder s') (ls_startModeOrder s') ->
           r ∈ rows_of (collect_api m).1)
  /\ (collect_api m).2 = (None, None).
Proof.
  intros Hc Hl Hs.
  assert (Hrows : rows_of (collect_api m).1
                  = flat_map emitted_rows before ++ flat_map emitted_rows after).
  { rewrite (rows_of_collect_api m _ Hc Hl).
    rewrite flat_map_app. cbn [flat_map].
    by rewrite (emitted_rows_fails s Hs). }
  split; [| split; [| split]].
  - rewrite rows_of_service_pass. by apply emitted_rows_fails.
  - exact Hrows.
  - intros s' cfg st Hin Ho Hcfg Hst r Hr.
    rewrite Hrows, <- flat_map_app.
    apply list_elem_of_In, in_flat_map. exists s'.
    split; [by apply list_elem_of_In |].
    apply list_elem_of_In. unfold emitted_rows. by rewrite Ho, Hcfg, Hst.
  - unfold collect_api. by rewrite Hc, Hl.
Qed.

(** C5.  In the WMI branch, when the query fails the pass sends no row and
    returns the (non-nil) error of the query. *)
Theorem wmi_query_failure_aborts (flags : Flags) (c : serviceCollector)
    (w : World) (err : error) :
  wmiDisabled flags = false ->
  w_wmi w (queryWhereClause c) = inl err ->
  rows_of (collect flags c w).1 = []
  /\ (collect flags c w).2 = (None, Some err)
  /\ (Collect flags c w).2 = Some err.
Proof.
  intros Hf Hq. unfold Collect, collect, collect_wmi. by rewrite Hf, Hq.
Qed.

(** ** Status rows of the API branch *)

Lemma Forall_flat_map {A B} (P : B -> Prop) (f : A -> list B) (l : list A) :
  (forall x, Forall P (f x)) -> Forall P (flat_map f l).
Proof.
  intros Hf. induction l as [|x l IH]; cbn [flat_map]; [constructor |].
  apply Forall_app. split; [apply Hf | exact IH].
Qed.

Lemma Forall_map_intro {A B} (P : B -> Prop) (f : A -> B) (l : list A) :
  (forall x, P (f x)) -> Forall P (map f l).
Proof.
  intros Hf. apply Forall_forall. intros y Hy.
  apply elem_of_map in Hy as (x & <- & _). apply Hf.
Qed.

(** A property of all rows of every service carries over to a whole pass. *)
Lemma Forall_rows_collect_api (P : Metric -> Prop) :
  (forall name cfg st so smo, Forall P (api_service_rows name cfg st so smo)) ->
  forall m, Forall P (rows_of (collect_api m).1).
Proof.
  intros HP m. unfold collect_api.
  destruct (sm_connect m); [constructor |].
  destruct (sm_list m) as [|l]; [constructor |].
  cbn [fst rows_of omap list_omap]. change (omap _ ?t) with (rows_of t).
  rewrite rows_of_app, rows_of_flat_service_pass. cbn. rewrite app_nil_r.
  apply Forall_flat_map. intros s. unfold emitted_rows.
  destruct (ls_open s); [constructor |].
  destruct (ls_config s); [constructor |].
  destruct (ls_query s); [constructor | apply HP].
Qed.

Lemma Forall_rows_collect_wmi (P : Metric -> Prop) :
  (forall service, Forall P (wmi_service_rows service)) ->
  forall c query, Forall P (rows_of (collect_wmi c query).1).
Proof.
  intros HP c query. unfold collect_wmi.
  destruct (query (queryWhereClause c)) as [|dst]; [constructor |].
  cbn [fst rows_of omap list_omap]. change (omap _ ?t) with (rows_of t).
  rewrite rows_of_flat_wmi. by apply Forall_flat_map.
Qed.

(** X5.  The label-count check of [MustNewConstMetric] never fails: every
    row a pass sends, in either branch, gets as many label values as its
    descriptor has variable labels. *)
Lemma rows_label_count_ok (flags : Flags) (c : serviceCollector) (w : World) :
  Forall (fun r => label_count_ok r = true) (rows_of (collect flags c w).1).
Proof.
  unfold collect. destruct (wmiDisabled flags).
  - apply Forall_rows_collect_api. intros name cfg st so smo.
    unfold api_service_rows. constructor; [done |].
    rewrite !Forall_app. split; [| split]; by apply Forall_map_intro.
  - apply Forall_rows_collect_wmi. intros service.
    unfold wmi_service_rows. constructor; [done |].
    rewrite !Forall_app. split; [| split]; by apply Forall_map_intro.
Qed.

(** C6.  For every service the API branch emits, the status rows are the
    twelve labels of [allStatuses], each with value 0.0; no status row of any
    API pass carries another value. *)
Theorem api_status_rows_all_zero :
  (forall (name : string) (cfg : mgr.Config) (st : svc.Status)
      (stateOrder startModeOrder : list (N * string)),
      let rows :=
        filter (of_desc Status)
          (api_service_rows name cfg st stateOrder startModeOrder) in
      rows = map (fun status => MustNewConstMetric Status 0 [ ToLower name; status ])
               allStatuses
      /\ length rows = 12
      /\ Forall is_zero rows)
  /\ (forall m : ServiceManager,
        Forall (fun r => desc r = Status -> value r = 0%Z)
          (rows_of (collect_api m).1)).
Proof.
  split.
  - intros name cfg st so smo rows. subst rows. rewrite api_rows_Status.
    split; [reflexivity |]. split; [reflexivity |].
    unfold api_status_rows. by apply Forall_map_intro.
  - apply Forall_rows_collect_api. intros name cfg st so smo.
    unfold api_service_rows. constructor; [done |].
    rewrite !Forall_app. split; [| split].
    + unfold api_state_rows. by apply Forall_map_intro.
    + unfold api_start_mode_rows. by apply Forall_map_intro.
    + unfold api_status_rows. by apply Forall_map_intro.
Qed.

(** ** Handles and the manager connection *)

(** X7.  The manager connection is never held when an API pass returns: it
    is released after a failed listing and after the loop, however the
    services fared, and was never acquired when the connection failed. *)
Lemma connection_released (m : ServiceManager) :
  connected (collect_api m).1 false = false.
Proof.
  unfold collect_api.
  destruct (sm_connect m); [done |].
  destruct (sm_list m) as [|l]; [done |].
  cbn [fst connected].
  generalize true. induction l as [|s l IH]; intros b; [done |].
  cbn [flat_map]. rewrite <- app_assoc.
  unfold service_pass at 1.
  destruct (ls_open s); [apply IH |].
  destruct (ls_config s) as [|cfg]; [apply IH |].
  destruct (ls_query s) as [|st]; [apply IH |].
  cbn [app connected].
  generalize (api_service_rows (ls_name s) cfg st (ls_stateOrder s)
                (ls_startModeOrder s)).
  intros rows. induction rows as [|r rows IHr]; [apply IH | exact IHr].
Qed.

(** An iteration that stops at a failing [Config] or [Query] closes the
    handle it opened; one that stops at a failing [OpenService] has none. *)
Lemma handle_closed_on_failure (s : LiveService) :
  service_fails s -> open_handles (service_pass s) [] = [].
Proof.
  unfold service_pass.
  intros [[e He] | [[e He] | [e He]]]; rewrite He.
  - done.
  - destruct (ls_open s); [done |]. cbn. by case_decide.
  - destruct (ls_open s); [done |].
    destruct (ls_config s); cbn; by case_decide.
Qed.

Lemma open_handles_Send (rows : list Metric) (held : list string) :
  open_handles (map Send rows) held = held.
Proof. induction rows as [|r rows IH]; [done | exact IH]. Qed.

(** An iteration that reaches the row emission never closes its handle. *)
Lemma handle_kept_on_success (s : LiveService) cfg st :
  ls_open s = None -> ls_config s = inr cfg -> ls_query s = inr st ->
  open_handles (service_pass s) [] = [ ls_name s ].
Proof.
  intros Ho Hc Hq. unfold service_pass. rewrite Ho, Hc, Hq.
  cbn [open_handles app]. apply open_handles_Send.
Qed.

(** C7, evaluated on the pass over [winrm_manager], whose single service is
    opened, configured and queried successfully: the connection is released,
    but the trace has no [Close] for the service and its handle is still open
    when the pass returns. *)
Theorem handle_left_open_on_success :
  let tr := (collect_api winrm_manager).1 in
  OpenService "WinRM" true ∈ tr
  /\ ~ (Close "WinRM" ∈ tr)
  /\ open_handles tr [] = [ "WinRM" ]
  /\ connected tr false = false
  /\ (collect_api winrm_manager).2 = (None, None).
Proof.
  split; [| split; [| split; [| split]]].
  - apply list_elem_of_In. vm_compute. tauto.
  - intros H. apply list_elem_of_In in H. vm_compute in H.
    repeat (destruct H as [H | H]; [discriminate H |]). exact H.
  - by vm_compute.
  - by vm_compute.
  - by vm_compute.
Qed.

(** ** The name label *)

Lemma wmi_rows_named (service : Win32_Service.t) :
  Forall (named (Win32_Service.Name service)) (wmi_service_rows service).
Proof.
  unfold wmi_service_rows. constructor; [done |].
  rewrite !Forall_app. split; [| split]; by apply Forall_map_intro.
Qed.

Lemma api_rows_named name cfg st stateOrder startModeOrder :
  Forall (named name) (api_service_rows name cfg st stateOrder startModeOrder).
Proof.
  unfold api_service_rows. constructor; [done |].
  rewrite !Forall_app. split; [| split]; by apply Forall_map_intro.
Qed.

Lemma Forall_flat_map_In {A B} (P : B -> Prop) (f : A -> list B) (l : list A) :
  (forall x, x ∈ l -> Forall P (f x)) -> Forall P (flat_map f l).
Proof.
  induction l as [|x l IH]; intros Hf; cbn [flat_map]; [constructor |].
  apply Forall_app. split.
  - apply Hf. left.
  - apply IH. intros y Hy. apply Hf. by right.
Qed.

Lemma lower_byte_not_upper (c : ascii) :
  let n := N_of_ascii (lower_byte c) in ((65 <=? n) && (n <=? 90))%N = false.
Proof. destruct c as [[] [] [] [] [] [] [] []]; reflexivity. Qed.

Lemma hasUpper_lower_bytes (s : string) : hasUpper (lower_bytes s) = false.
Proof.
  induction s as [|c s IH]; [done |].
  cbn [lower_bytes hasUpper]. rewrite IH.
  pose proof (lower_byte_not_upper c) as Hc. cbn zeta in Hc. by rewrite Hc.
Qed.

Lemma lower_bytes_no_upper (s : string) : hasUpper s = false -> lower_bytes s = s.
Proof.
  induction s as [|c s IH]; [done |].
  cbn [lower_bytes hasUpper]. intros Hup.
  apply orb_false_elim in Hup as [Hc Hs].
  rewrite (IH Hs). unfold lower_byte. cbn zeta. by rewrite Hc.
Qed.

(** On an all-ASCII string [strings.ToLower] is the byte-wise lowering, and
    its result has no capital letter. *)
Lemma ToLower_ASCII (s : string) :
  isASCII s = true -> ToLower s = lower_bytes s /\ hasUpper (ToLower s) = false.
Proof.
  intros Hs. unfold ToLower. rewrite Hs.
  destruct (hasUpper s) eqn:Hup.
  - split; [done | apply hasUpper_lower_bytes].
  - split; [by rewrite lower_bytes_no_upper | done].
Qed.

(** C8.  Every row of the four kinds, in both branches, carries as its
    [name] label [strings.ToLower] of the raw service name.  This holds of the
    rows of each service, and a pass sends exactly the rows of its services,
    so it holds of every row of every pass.  For an all-ASCII name the label
    is the name with ['A'..'Z'] replaced by ['a'..'z'] and has no capital
    letter; [WinRM] gives [winrm]. *)
Theorem name_label_lower_cased :
  (forall service : Win32_Service.t,
      Forall (named (Win32_Service.Name service)) (wmi_service_rows service))
  /\ (forall (name : string) (cfg : mgr.Config) (st : svc.Status)
        (stateOrder startModeOrder : list (N * string)),
        Forall (named name)
          (api_service_rows name cfg st stateOrder startModeOrder))
  /\ (forall (flags : Flags) (c : serviceCollector) (w : World),
        Forall (fun r => exists raw, raw ∈ raw_names flags c w /\ named raw r)
          (rows_of (collect flags c w).1))
  /\ (forall (c : serviceCollector) query (dst : list Win32_Service.t),
        query (queryWhereClause c) = inr dst ->
        rows_of (collect_wmi c query).1 = flat_map wmi_service_rows dst)
  /\ (forall (m : ServiceManager) (l : list LiveService),
        sm_connect m = None -> sm_list m = inr l ->
        rows_of (collect_api m).1 = flat_map emitted_rows l)
  /\ (forall raw : string,
        isASCII raw = true ->
        ToLower raw = lower_bytes raw /\ hasUpper (ToLower raw) = false)
  /\ ToLower "WinRM" = "winrm"
  /\ Forall (fun r => label r "name" = Some "winrm")
       (wmi_service_rows winrm_wmi ++ emitted_rows winrm_live).
Proof.
  split; [exact wmi_rows_named |]. split; [exact api_rows_named |].
  split; [| split; [exact rows_of_collect_wmi |
            split; [exact rows_of_collect_api |
            split; [exact ToLower_ASCII |
            split; [reflexivity | vm_compute; repeat constructor]]]]].
  intros flags c w. unfold collect, raw_names.
  destruct (wmiDisabled flags).
  - unfold collect_api.
    destruct (sm_connect (w_mgr w)); [constructor |].
    destruct (sm_list (w_mgr w)) as [|l]; [constructor |].
    cbn [fst rows_of omap list_omap]. change (omap _ ?t) with (rows_of t).
    rewrite rows_of_app, rows_of_flat_service_pass. cbn. rewrite app_nil_r.
    apply Forall_flat_map_In. intros s Hs. unfold emitted_rows.
    destruct (ls_open s); [constructor |].
    destruct (ls_config s) as [|cfg]; [constructor |].
    destruct (ls_query s) as [|st]; [constructor |].
    eapply Forall_impl; [apply api_rows_named |].
    intros r Hr. exists (ls_name s). split; [| exact Hr].
    apply elem_of_map. by exists s.
  - unfold collect_wmi.
    destruct (w_wmi w (queryWhereClause c)) as [|dst]; [constructor |].
    cbn [fst rows_of omap list_omap]. change (omap _ ?t) with (rows_of t).
    rewrite rows_of_flat_wmi.
    apply Forall_flat_map_In. intros s Hs.
    eapply Forall_impl; [apply wmi_rows_named |].
    intros r Hr. exists (Win32_Service.Name s). split; [| exact Hr].
    apply elem_of_map. by exists s.
Qed.

(** ** Backend selection *)







(** ** Case-insensitive matching in the WMI branch *)

Lemma labels_lower_case :
  Forall (fun l => ToLower l = l) (allStates ++ allStartModes ++ allStatuses).
Proof. repeat constructor. Qed.

Lemma one_hot_current d name current l :
  current ∈ l -> MustNewConstMetric d 1 [ name; current ] ∈ one_hot d name current l.
Proof.
  intros Hin. apply elem_of_map. exists current.
  by rewrite isCurrent_same.
Qed.

Lemma elem_of_wmi_service_rows (service : Win32_Service.t) (r : Metric) :
  r ∈ wmi_state_rows service \/ r ∈ wmi_start_mode_rows service
  \/ r ∈ wmi_status_rows service ->
  r ∈ wmi_service_rows service.
Proof.
  unfold wmi_service_rows. rewrite elem_of_cons, !elem_of_app. tauto.
Qed.

(** The rows of one entry: a raw value equal to a table label up to letter
    case sets the row of that label. *)
Lemma wmi_service_rows_match (service : Win32_Service.t) :
  (forall state, state ∈ allStates ->
      ToLower (Win32_Service.State service) = ToLower state ->
      MustNewConstMetric State 1 [ ToLower (Win32_Service.Name service); state ]
        ∈ wmi_service_rows service)
  /\ (forall startMode, startMode ∈ allStartModes ->
        ToLower (Win32_Service.StartMode service) = ToLower startMode ->
        MustNewConstMetric StartMode 1
          [ ToLower (Win32_Service.Name service); startMode ]
          ∈ wmi_service_rows service)
  /\ (forall status, status ∈ allStatuses ->
        ToLower (Win32_Service.Status service) = ToLower status ->
        MustNewConstMetric Status 1
          [ ToLower (Win32_Service.Name service); status ]
          ∈ wmi_service_rows service).
Proof.
  pose proof labels_lower_case as Hlow.
  rewrite !Forall_app in Hlow. destruct Hlow as (Hs & Hm & Ht).
  rewrite Forall_forall in Hs, Hm, Ht.
  split; [| split]; intros lbl Hin Heq; apply elem_of_wmi_service_rows.
  - left. rewrite wmi_state_rows_one_hot, Heq, (Hs lbl Hin).
    by apply one_hot_current.
  - right; left. rewrite wmi_start_mode_rows_one_hot, Heq, (Hm lbl Hin).
    by apply one_hot_current.
  - right; right. rewrite wmi_status_rows_one_hot, Heq, (Ht lbl Hin).
    by apply one_hot_current.
Qed.

Lemma elem_of_rows_collect_wmi (flags : Flags) (c : serviceCollector) (w : World)
    (dst : list Win32_Service.t) (service : Win32_Service.t) (r : Metric) :
  wmiDisabled flags = false ->
  w_wmi w (queryWhereClause c) = inr dst ->
  service ∈ dst ->
  r ∈ wmi_service_rows service ->
  r ∈ rows_of (collect flags c w).1.
Proof.
  intros Hf Hq Hs Hr. unfold collect. rewrite Hf.
  rewrite (rows_of_collect_wmi c (w_wmi w) dst Hq).
  apply list_elem_of_In, in_flat_map. exists service.
  split; by apply list_elem_of_In.
Qed.

(** C10.  A pass of the WMI branch lower-cases the raw state, start mode and
    status of every entry the query returns before comparing them with the
    tables: whenever the raw value of an entry equals a table label up to
    letter case, the pass sends the row of that label, for that entry, with
    value 1.0. *)
Theorem wmi_matching_case_insensitive (flags : Flags) (c : serviceCollector)
    (w : World) (dst : list Win32_Service.t) (service : Win32_Service.t) :
  wmiDisabled flags = false ->
  w_wmi w (queryWhereClause c) = inr dst ->
  service ∈ dst ->
  let rows := rows_of (collect flags c w).1 in
  (forall state, state ∈ allStates ->
      ToLower (Win32_Service.State service) = ToLower state ->
      MustNewConstMetric State 1 [ ToLower (Win32_Service.Name service); state ]
        ∈ rows)
  /\ (forall startMode, startMode ∈ allStartModes ->
        ToLower (Win32_Service.StartMode service) = ToLower startMode ->
        MustNewConstMetric StartMode 1
          [ ToLower (Win32_Service.Name service); startMode ]
          ∈ rows)
  /\ (forall status, status ∈ allStatuses ->
        ToLower (Win32_Service.Status service) = ToLower status ->
        MustNewConstMetric Status 1
          [ ToLower (Win32_Service.Name service); status ]
          ∈ rows).
Proof.
  intros Hf Hq Hs rows. subst rows.
  destruct (wmi_service_rows_match service) as (Hstate & Hmode & Hstatus).
  split; [| split]; intros lbl Hin Heq;
    apply (elem_of_rows_collect_wmi flags c w dst service _ Hf Hq Hs).
  - by apply Hstate.
  - by apply Hmode.
  - by apply Hstatus.
Qed.

(** ** Start-mode and status rows *)

(** X1.  Start-mode rows are one-hot in both branches: when the raw start
    mode is in the table (lower-cased raw value in [allStartModes] for WMI, a
    key of [apiStartModeValues] for the API), the five start-mode rows of the
    service hold exactly one 1.0, on the row of that start mode, and four 0.0. *)
Theorem start_mode_rows_one_hot :
  (forall service : Win32_Service.t,
      ToLower (Win32_Service.StartMode service) ∈ allStartModes ->
      let rows := filter (of_desc StartMode) (wmi_service_rows service) in
      filter is_one rows
        = [ MustNewConstMetric StartMode 1
              [ ToLower (Win32_Service.Name service);
                ToLower (Win32_Service.StartMode service) ] ]
      /\ length (filter is_zero rows) = 4
      /\ length rows = 5)
  /\ (forall (name : string) (cfg : mgr.Config) (st : svc.Status)
        (stateOrder startModeOrder : list (N * string)) (startMode : string),
      startModeOrder ≡ₚ map_to_list apiStartModeValues ->
      apiStartModeValues !! mgr.StartType cfg = Some startMode ->
      let rows :=
        filter (of_desc StartMode)
          (api_service_rows name cfg st stateOrder startModeOrder) in
      filter is_one rows
        = [ MustNewConstMetric StartMode 1 [ ToLower name; startMode ] ]
      /\ length (filter is_zero rows) = 4
      /\ length rows = 5).
Proof.
  split.
  - intros service Hin rows. subst rows.
    rewrite wmi_rows_StartMode, wmi_start_mode_rows_one_hot.
    destruct (one_hot_hit StartMode (ToLower (Win32_Service.Name service)) _ _
                NoDup_allStartModes Hin) as [H1 H0].
    rewrite one_hot_length. change (length allStartModes) with 5 in *.
    split; [done |]. split; [| done]. by injection H0.
  - intros name cfg st stateOrder startModeOrder startMode Ho Hk rows. subst rows.
    rewrite api_rows_StartMode, api_start_mode_rows_one_hot.
    unfold index. rewrite Hk. simpl.
    destruct (one_hot_hit StartMode (ToLower name) startMode
                (map snd startModeOrder)) as [H1 H0].
    + by apply api_start_mode_order_NoDup.
    + by apply (range_lookup _ _ Ho (mgr.StartType cfg)).
    + rewrite one_hot_length, length_map in *.
      rewrite (range_length _ _ Ho) in *.
      change (size apiStartModeValues) with 5 in *.
      split; [done |]. split; [| done]. by injection H0.
Qed.

(** X2.  In the WMI branch the status rows are one-hot: when the lower-cased
    raw status is in [allStatuses], the twelve status rows of the service hold
    exactly one 1.0, on the row of that status, and eleven 0.0. *)
Theorem wmi_status_rows_one_hot_rows (service : Win32_Service.t) :
  ToLower (Win32_Service.Status service) ∈ allStatuses ->
  let rows := filter (of_desc Status) (wmi_service_rows service) in
  filter is_one rows
    = [ MustNewConstMetric Status 1
          [ ToLower (Win32_Service.Name service);
            ToLower (Win32_Service.Status service) ] ]
  /\ length (filter is_zero rows) = 11
  /\ length rows = 12.
Proof.
  intros Hin rows. subst rows.
  rewrite wmi_rows_Status, wmi_status_rows_one_hot.
  destruct (one_hot_hit Status (ToLower (Win32_Service.Name service)) _ _
              NoDup_allStatuses Hin) as [H1 H0].
  rewrite one_hot_length. change (length allStatuses) with 12 in *.
  split; [done |]. split; [| done]. by injection H0.
Qed.

(** ** Invariants of every row *)

Lemma one_hot_at_most_one d name current l :
  NoDup l -> length (filter is_one (one_hot d name current l)) <= 1.
Proof.
  intros Hnd. destruct (decide (current ∈ l)) as [Hin | Hnin].
  - destruct (one_hot_hit d name current l Hnd Hin) as [-> _]. done.
  - rewrite (filter_is_one_zero _ (one_hot_miss d name current l Hnin)).
    simpl. lia.
Qed.

(** X3.  Whatever the raw values are, recognized or not, no descriptor of a
    service ever has two rows set: among its state rows, among its start-mode
    rows and among its status rows at most one carries 1.0 (and it has a
    single info row). *)
Theorem at_most_one_row_set :
  (forall (service : Win32_Service.t) (d : Desc),
      length (filter is_one (filter (of_desc d) (wmi_service_rows service))) <= 1)
  /\ (forall (name : string) (cfg : mgr.Config) (st : svc.Status)
        (stateOrder startModeOrder : list (N * string)) (d : Desc),
      stateOrder ≡ₚ map_to_list apiStateValues ->
      startModeOrder ≡ₚ map_to_list apiStartModeValues ->
      length (filter is_one
                (filter (of_desc d)
                   (api_service_rows name cfg st stateOrder startModeOrder)))
      <= 1).
Proof.
  split.
  - intros service d. destruct d.
    + by rewrite wmi_rows_Information.
    + rewrite wmi_rows_State, wmi_state_rows_one_hot.
      apply one_hot_at_most_one, NoDup_allStates.
    + rewrite wmi_rows_StartMode, wmi_start_mode_rows_one_hot.
      apply one_hot_at_most_one, NoDup_allStartModes.
    + rewrite wmi_rows_Status, wmi_status_rows_one_hot.
      apply one_hot_at_most_one, NoDup_allStatuses.
  - intros name cfg st stateOrder startModeOrder d Hs Hm.
    destruct d.
    + by rewrite api_rows_Information.
    + rewrite api_rows_State, api_state_rows_one_hot.
      by apply one_hot_at_most_one, api_state_order_NoDup.
    + rewrite api_rows_StartMode, api_start_mode_rows_one_hot.
      by apply one_hot_at_most_one, api_start_mode_order_NoDup.
    + rewrite api_rows_Status. unfold api_status_rows.
      rewrite filter_is_one_zero; [simpl; lia |].
      by apply Forall_map_intro.
Qed.

Lemma isCurrent_binary (x y : string) : isCurrent x y = 0%Z \/ isCurrent x y = 1%Z.
Proof. unfold isCurrent. case_decide; [by right | by left]. Qed.

(** X4.  Every row a pass sends, in either branch, carries 0.0 or 1.0, and
    every info row carries the constant 1.0. *)
Theorem row_values_binary (flags : Flags) (c : serviceCollector) (w : World) :
  Forall (fun r => (value r = 0%Z \/ value r = 1%Z)
                   /\ (desc r = Information -> value r = 1%Z))
    (rows_of (collect flags c w).1).
Proof.
  unfold collect. destruct (wmiDisabled flags).
  - apply Forall_rows_collect_api. intros name cfg st so smo.
    unfold api_service_rows. constructor; [split; [by right | done] |].
    rewrite !Forall_app. split; [| split]; apply Forall_map_intro; intros x;
      (split; [| done]); cbn [value]; by (apply isCurrent_binary || left).
  - apply Forall_rows_collect_wmi. intros service.
    unfold wmi_service_rows. constructor; [split; [by right | done] |].
    rewrite !Forall_app. split; [| split]; apply Forall_map_intro; intros x;
      (split; [| done]); cbn [value]; apply isCurrent_binary.
Qed.

(** ** Whole-pass failures *)

(** X6.  The descriptor returned by [collect] is always [nil].  A pass that
    returns an error has sent no row.  The API branch returns an error exactly
    when [mgr.Connect] or [ListServices] fails (never because of a service),
    the WMI branch exactly when the query fails. *)
Theorem failed_pass_sends_nothing :
  (forall (flags : Flags) (c : serviceCollector) (w : World),
      (collect flags c w).2.1 = None
      /\ (is_Some (collect flags c w).2.2 -> rows_of (collect flags c w).1 = []))
  /\ (forall m : ServiceManager,
        is_Some (collect_api m).2.2
        <-> is_Some (sm_connect m)
            \/ (sm_connect m = None /\ exists err, sm_list m = inl err))
  /\ (forall (c : serviceCollector) query,
        is_Some (collect_wmi c query).2.2
        <-> exists err, query (queryWhereClause c) = inl err).
Proof.
  split; [| split].
  - intros flags c w. unfold collect, collect_api, collect_wmi.
    destruct (wmiDisabled flags).
    + destruct (sm_connect (w_mgr w)); [done |].
      destruct (sm_list (w_mgr w)); [done |].
      split; [done |]. intros [e He]. discriminate He.
    + destruct (w_wmi w (queryWhereClause c)); [done |].
      split; [done |]. intros [e He]. discriminate He.
  - intros m. unfold collect_api.
    destruct (sm_connect m) as [e|].
    + split; [intros _; left; by eexists | intros _; by eexists].
    + destruct (sm_list m) as [e|l]; cbn.
      * split; [intros _; right; split; [done | by eexists] | intros _; by eexists].
      * split.
        -- intros [e He]. discriminate He.
        -- intros [[e He] | [_ [e He]]]; discriminate He.
  - intros c query. unfold collect_wmi.
    destruct (query (queryWhereClause c)) as [e|dst]; cbn.
    + split; [intros _; by eexists | intros _; by eexists].
    + split; [intros [e He] | intros [e He]]; discriminate He.
Qed.

(** ** Handle accounting *)

Lemma release_snoc (service : string) (held : list string) :
  release service (held ++ [ service ]) ≡ₚ held.
Proof.
  induction held as [|h held IH]; cbn [app release].
  - by rewrite decide_True.
  - case_decide as Hh.
    + subst h. symmetry. apply Permutation_cons_append.
    + by constructor.
Qed.

Lemma release_perm (service : string) (l l' : list string) :
  l ≡ₚ l' -> release service l ≡ₚ release service l'.
Proof.
  induction 1 as [| x l l' Hp IH | x y l | l l' l'' _ IH1 _ IH2]; cbn [release].
  - done.
  - case_decide; [done | by constructor].
  - repeat case_decide; subst; try done. apply perm_swap.
  - by etrans.
Qed.

Lemma open_handles_app (a b : list Event) (held : list string) :
  open_handles (a ++ b) held = open_handles b (open_handles a held).
Proof.
  revert held. induction a as [|e a IH]; intros held; [done |].
  destruct e as [| | | service [|] | | | | |]; cbn [app open_handles]; apply IH.
Qed.

Lemma open_handles_perm (tr : list Event) (held held' : list string) :
  held ≡ₚ held' -> open_handles tr held ≡ₚ open_handles tr held'.
Proof.
  revert held held'. induction tr as [|e tr IH]; intros held held' Hp; [done |].
  destruct e as [| | | service [|] | | | service | |]; cbn [open_handles];
    apply IH; try done.
  - by apply Permutation_app_tail.
  - by apply release_perm.
Qed.

Lemma open_handles_service_pass (s : LiveService) (held : list string) :
  open_handles (service_pass s) held
  ≡ₚ held ++ (if succeeded s then [ ls_name s ] else []).
Proof.
  unfold service_pass, succeeded.
  destruct (ls_open s); [by rewrite app_nil_r |].
  destruct (ls_config s) as [|cfg].
  { cbn [open_handles]. rewrite app_nil_r. apply release_snoc. }
  destruct (ls_query s) as [|st].
  { cbn [open_handles]. rewrite app_nil_r. apply release_snoc. }
  cbn [open_handles]. by rewrite open_handles_Send.
Qed.

Lemma open_handles_loop (l : list LiveService) (held : list string) :
  open_handles (flat_map service_pass l) held
  ≡ₚ held ++ map ls_name (List.filter succeeded l).
Proof.
  revert held. induction l as [|s l IH]; intros held.
  - by rewrite app_nil_r.
  - cbn [flat_map List.filter]. rewrite open_handles_app.
    rewrite (open_handles_perm _ _ _ (open_handles_service_pass s held)).
    rewrite IH. destruct (succeeded s); cbn [map].
    + by rewrite <- app_assoc.
    + by rewrite app_nil_r.
Qed.

(** X8.  When an API pass returns, the service handles still open are those
    of the services on which the three calls succeeded, one each; a service on
    which a call failed leaves none.  So a pass in which every service fails,
    or which fails as a whole, leaves no handle open. *)
Theorem handles_open_after_pass :
  (forall (m : ServiceManager) (l : list LiveService),
      sm_connect m = None -> sm_list m = inr l ->
      open_handles (collect_api m).1 [] ≡ₚ map ls_name (List.filter succeeded l))
  /\ (forall m : ServiceManager,
        is_Some (collect_api m).2.2 -> open_handles (collect_api m).1 [] = []).
Proof.
  split.
  - intros m l Hc Hl. unfold collect_api. rewrite Hc, Hl.
    cbn [fst open_handles]. rewrite open_handles_app. cbn [open_handles].
    apply (open_handles_loop l []).
  - intros m. unfold collect_api.
    destruct (sm_connect m); [done |].
    destruct (sm_list m); [done |].
    intros [e He]. discriminate He.
Qed.

Lemma closes_held_app (a b : list Event) (held : list string) :
  closes_held (a ++ b) held
  = closes_held a held && closes_held b (open_handles a held).
Proof.
  revert held. induction a as [|e a IH]; intros held; [done |].
  destruct e as [| | | service [|] | | | service | |];
    cbn [app closes_held open_handles]; rewrite ?IH; try done.
  by rewrite andb_assoc.
Qed.

Lemma closes_held_Send (rows : list Metric) (held : list string) :
  closes_held (map Send rows) held = true.
Proof. induction rows as [|r rows IH]; [done | exact IH]. Qed.

Lemma closes_held_service_pass (s : LiveService) (held : list string) :
  closes_held (service_pass s) held = true.
Proof.
  assert (Hsnoc : bool_decide (ls_name s ∈ held ++ [ ls_name s ]) = true).
  { apply bool_decide_eq_true. apply elem_of_app. right. left. }
  unfold service_pass.
  destruct (ls_open s); [done |].
  destruct (ls_config s) as [|cfg]; [cbn [closes_held]; by rewrite Hsnoc |].
  destruct (ls_query s) as [|st]; [cbn [closes_held]; by rewrite Hsnoc |].
  cbn [closes_held]. apply closes_held_Send.
Qed.

(** X9.  An API pass never closes a handle it does not hold: each
    [serviceHandle.Close()] happens while the handle of that service is open
    (no close of an unopened service, no double close). *)
Theorem closes_only_held_handles (m : ServiceManager) :
  closes_held (collect_api m).1 [] = true.
Proof.
  unfold collect_api.
  destruct (sm_connect m); [done |].
  destruct (sm_list m) as [|l]; [done |].
  cbn [fst closes_held]. rewrite closes_held_app.
  rewrite andb_true_r. generalize (@nil string).
  induction l as [|s l IH]; intros held; [done |].
  cbn [flat_map]. rewrite closes_held_app, closes_held_service_pass. apply IH.
Qed.

Lemma opened_names_service_pass (s : LiveService) :
  opened_names (service_pass s) = [ ls_name s ].
Proof.
  unfold service_pass, opened_names.
  destruct (ls_open s); [done |].
  destruct (ls_config s) as [|cfg]; [done |].
  destruct (ls_query s) as [|st]; [done |].
  cbn [omap list_omap]. f_equal.
  generalize (api_service_rows (ls_name s) cfg st (ls_stateOrder s)
                (ls_startModeOrder s)).
  intros rows. induction rows as [|r rows IH]; [done | exact IH].
Qed.

Lemma opened_names_app (a b : list Event) :
  opened_names (a ++ b) = opened_names a ++ opened_names b.
Proof. apply omap_app. Qed.

Lemma opened_names_loop (l : list LiveService) :
  opened_names (flat_map service_pass l) = map ls_name l.
Proof.
  induction l as [|s l IH]; [done |].
  cbn [flat_map map]. by rewrite opened_names_app, opened_names_service_pass, IH.
Qed.

(** X10.  An API pass whose connection and listing succeed calls
    [OpenService] exactly once for every listed name, in listing order,
    whether or not earlier services failed. *)
Theorem every_listed_service_opened (m : ServiceManager) (l : list LiveService) :
  sm_connect m = None -> sm_list m = inr l ->
  opened_names (collect_api m).1 = map ls_name l.
Proof.
  intros Hc Hl. unfold collect_api. rewrite Hc, Hl. cbn [fst].
  change (opened_names (flat_map service_pass l ++ [ Disconnect ]) = map ls_name l).
  rewrite opened_names_app, opened_names_loop. apply app_nil_r.
Qed.

(** ** The size of a pass *)

Lemma length_flat_map_const {A B} (f : A -> list B) (l : list A) (n : nat) :
  (forall x, x ∈ l -> length (f x) = n) -> length (flat_map f l) = n * length l.
Proof.
  induction l as [|x l IH]; intros Hf; cbn [flat_map length]; [lia |].
  rewrite length_app, Hf by left. rewrite IH; [lia |].
  intros y Hy. apply Hf. by right.
Qed.

Lemma wmi_service_rows_length (service : Win32_Service.t) :
  length (wmi_service_rows service) = 26.
Proof. reflexivity. Qed.

Lemma api_service_rows_length name cfg st stateOrder startModeOrder :
  stateOrder ≡ₚ map_to_list apiStateValues ->
  startModeOrder ≡ₚ map_to_list apiStartModeValues ->
  length (api_service_rows name cfg st stateOrder startModeOrder) = 25.
Proof.
  intros Hs Hm.
  unfold api_service_rows, api_state_rows, api_start_mode_rows, api_status_rows.
  cbn [length]. rewrite !length_app, !length_map.
  rewrite (range_length _ _ Hs), (range_length _ _ Hm). reflexivity.
Qed.

Lemma emitted_rows_length (s : LiveService) :
  orders_ok s -> length (emitted_rows s) = if succeeded s then 25 else 0.
Proof.
  intros [Hs Hm]. unfold emitted_rows, succeeded.
  destruct (ls_open s); [done |].
  destruct (ls_config s); [done |].
  destruct (ls_query s); [done |].
  by apply api_service_rows_length.
Qed.

Lemma emitted_rows_total (l : list LiveService) :
  Forall orders_ok l ->
  length (flat_map emitted_rows l) = 25 * length (List.filter succeeded l).
Proof.
  induction 1 as [|s l Hs _ IH]; [done |].
  cbn [flat_map List.filter]. rewrite length_app, IH, (emitted_rows_length s Hs).
  destruct (succeeded s); cbn [length]; lia.
Qed.

(** X11.  The number of rows of a successful pass: 26 for every entry the WMI
    query returned; 25 for every listed service on which the three calls
    succeeded in the API branch, and none for the others. *)
Theorem pass_row_count :
  (forall (c : serviceCollector) query (dst : list Win32_Service.t),
      query (queryWhereClause c) = inr dst ->
      length (rows_of (collect_wmi c query).1) = 26 * length dst)
  /\ (forall (m : ServiceManager) (l : list LiveService),
        sm_connect m = None -> sm_list m = inr l -> Forall orders_ok l ->
        length (rows_of (collect_api m).1)
        = 25 * length (List.filter succeeded l)).
Proof.
  split.
  - intros c query dst Hq. rewrite (rows_of_collect_wmi c query dst Hq).
    apply length_flat_map_const. intros s _. apply wmi_service_rows_length.
  - intros m l Hc Hl Hok. rewrite (rows_of_collect_api m l Hc Hl).
    by apply emitted_rows_total.
Qed.

(** ** The label vocabulary *)

Lemma omap_map_Some {A B C} (g : B -> option C) (f : A -> B) (h : A -> C)
    (l : list A) :
  (forall x, g (f x) = Some (h x)) -> omap g (map f l) = map h l.
Proof.
  intros Hg. induction l as [|x l IH]; [done |].
  cbn [map omap list_omap]. rewrite Hg. cbn. f_equal. exact IH.
Qed.

Lemma omap_map_None {A B C} (g : B -> option C) (f : A -> B) (l : list A) :
  (forall x, g (f x) = None) -> omap g (map f l) = [].
Proof.
  intros Hg. induction l as [|x l IH]; [done |].
  cbn [map omap list_omap]. rewrite Hg. exact IH.
Qed.

Lemma label_values_app key (a b : list Metric) :
  label_values key (a ++ b) = label_values key a ++ label_values key b.
Proof. apply omap_app. Qed.

Lemma apiStartModeValues_vocabulary :
  map snd (map_to_list apiStartModeValues) ≡ₚ allStartModes.
Proof.
  rewrite apiStartModeValues_labels. apply NoDup_Permutation.
  - apply (bool_decide_unpack _). by vm_compute.
  - apply NoDup_allStartModes.
  - intros x. unfold allStartModes.
    rewrite !elem_of_cons, !elem_of_nil. tauto.
Qed.

Lemma apiStateValues_vocabulary :
  "unknown" :: map snd (map_to_list apiStateValues) ≡ₚ allStates.
Proof.
  rewrite apiStateValues_labels. apply NoDup_Permutation.
  - apply (bool_decide_unpack _). by vm_compute.
  - apply NoDup_allStates.
  - intros x. unfold allStates.
    rewrite !elem_of_cons, !elem_of_nil. tauto.
Qed.

(** Reading one label off the rows of a service. *)
Ltac read_labels :=
  unfold label_values;
  repeat first
    [ rewrite omap_app
    | rewrite (omap_map_None (fun r => label r _)) by done
    | rewrite (omap_map_Some (fun r => label r _) _ (fun x => x)) by done
    | rewrite (omap_map_Some (fun r => label r _) _ snd) by done ];
  rewrite ?List.map_id, ?app_nil_r; cbn [app].

(** X12.  The two branches publish the same label vocabulary.  In the WMI
    branch the [state], [start_mode] and [status] labels of a service are
    [allStates], [allStartModes] and [allStatuses], each label once.  In the
    API branch the [start_mode] labels are [allStartModes] in some order, the
    [status] labels are [allStatuses], and the [state] labels are [allStates]
    without [unknown], in some order. *)
Theorem label_vocabulary :
  (forall service : Win32_Service.t,
      let rows := wmi_service_rows service in
      label_values "state" rows = allStates
      /\ label_values "start_mode" rows = allStartModes
      /\ label_values "status" rows = allStatuses)
  /\ (forall (name : string) (cfg : mgr.Config) (st : svc.Status)
        (stateOrder startModeOrder : list (N * string)),
      stateOrder ≡ₚ map_to_list apiStateValues ->
      startModeOrder ≡ₚ map_to_list apiStartModeValues ->
      let rows := api_service_rows name cfg st stateOrder startModeOrder in
      "unknown" :: label_values "state" rows ≡ₚ allStates
      /\ label_values "start_mode" rows ≡ₚ allStartModes
      /\ label_values "status" rows = allStatuses).
Proof.
  split.
  - intros service rows. subst rows.
    unfold wmi_service_rows, wmi_state_rows, wmi_start_mode_rows, wmi_status_rows.
    split; [| split]; unfold label_values; cbn [omap list_omap label];
      change (list_omap ?f ?t) with (omap f t); read_labels; done.
  - intros name cfg st so smo Hs Hm rows. subst rows.
    unfold api_service_rows, api_state_rows, api_start_mode_rows, api_status_rows.
    split; [| split]; unfold label_values; cbn [omap list_omap];
      match goal with
      | |- context [ label (api_info_row name cfg st) ?k ] =>
          change (label (api_info_row name cfg st) k) with (@None string)
      end;
      change (list_omap ?f ?t) with (omap f t); read_labels.
    + rewrite (range_values _ _ Hs). apply apiStateValues_vocabulary.
    + rewrite (range_values _ _ Hm). apply apiStartModeValues_vocabulary.
    + done.
Qed.

(** ** Agreement of the two branches *)

Lemma one_hot_perm d name current (l l' : list string) :
  l ≡ₚ l' -> one_hot d name current l ≡ₚ one_hot d name current l'.
Proof. intros Hp. unfold one_hot. by apply Permutation_map. Qed.

Lemma one_hot_all_zero d name current (l : list string) :
  current ∉ l ->
  one_hot d name current l
  = map (fun candidate => MustNewConstMetric d 0 [ name; candidate ]) l.
Proof.
  intros Hnin. unfold one_hot. apply map_ext_in. intros y Hy.
  rewrite isCurrent_other; [done |].
  intros ->. apply Hnin. by apply list_elem_of_In.
Qed.

Lemma index_apiStateValues_known (k : N) : index apiStateValues k <> "unknown".
Proof.
  unfold index. destruct (apiStateValues !! k) as [v|] eqn:Hk; [| done].
  cbn. intros ->.
  apply elem_of_map_to_list in Hk.
  assert (Hin : "unknown" ∈ map snd (map_to_list apiStateValues)).
  { apply elem_of_map. by exists (k, "unknown"). }
  rewrite apiStateValues_labels in Hin.
  revert Hin. apply (bool_decide_unpack _). by vm_compute.
Qed.

(** X13.  The two branches describe the same service in the same way.  When
    the lower-cased WMI name, start mode and state of an entry are the name
    and the mapped start mode and state of an API service, the API start-mode
    rows are the WMI start-mode rows in some order, and the API state rows
    together with a 0.0 row labelled [unknown] are the WMI state rows in some
    order.  When the WMI status is in no table, the status rows of the two
    branches are equal. *)
Theorem branches_agree (service : Win32_Service.t) (name : string)
    (cfg : mgr.Config) (st : svc.Status)
    (stateOrder startModeOrder : list (N * string)) :
  stateOrder ≡ₚ map_to_list apiStateValues ->
  startModeOrder ≡ₚ map_to_list apiStartModeValues ->
  ToLower (Win32_Service.Name service) = ToLower name ->
  (ToLower (Win32_Service.StartMode service)
   = index apiStartModeValues (mgr.StartType cfg) ->
   api_start_mode_rows name cfg startModeOrder ≡ₚ wmi_start_mode_rows service)
  /\ (ToLower (Win32_Service.State service)
      = index apiStateValues (svc.State st) ->
      MustNewConstMetric State 0 [ ToLower name; "unknown" ]
        :: api_state_rows name st stateOrder
      ≡ₚ wmi_state_rows service)
  /\ (ToLower (Win32_Service.Status service) ∉ allStatuses ->
      api_status_rows name = wmi_status_rows service).
Proof.
  intros Hs Hm Hname. split; [| split].
  - intros Hmode.
    rewrite api_start_mode_rows_one_hot, wmi_start_mode_rows_one_hot.
    rewrite Hname, Hmode. apply one_hot_perm.
    rewrite (range_values _ _ Hm). apply apiStartModeValues_vocabulary.
  - intros Hstate.
    rewrite api_state_rows_one_hot, wmi_state_rows_one_hot.
    rewrite Hname, Hstate.
    rewrite <- (isCurrent_other "unknown" (index apiStateValues (svc.State st)))
      by (intros Heq; by apply (index_apiStateValues_known (svc.State st))).
    rewrite <- one_hot_cons. apply one_hot_perm.
    rewrite (range_values _ _ Hs). apply apiStateValues_vocabulary.
  - intros Hstatus.
    rewrite wmi_status_rows_one_hot, (one_hot_all_zero _ _ _ _ Hstatus).
    by rewrite Hname.
Qed.

(** ** The info row *)

Lemma FormatUint_inj (n n' : N) : FormatUint n = FormatUint n' -> n = n'.
Proof.
  unfold FormatUint. intros Heq.
  apply DecimalN.Unsigned.to_uint_inj.
  assert (H : Some (N.to_uint n) = Some (N.to_uint n')).
  { rewrite <- !NilEmpty.usu. by rewrite Heq. }
  by injection H.
Qed.

(** X14.  The four label values of an info row line up with the label names
    of its descriptor: [name] is the lower-cased service name, [display_name]
    the display name, [process_id] the decimal process id, and [run_as] the
    account name, which in the WMI branch is the empty string when
    [StartName] is nil.  Different process ids give different [process_id]
    labels. *)
Theorem info_row_labels :
  (forall service : Win32_Service.t,
      let r := wmi_info_row service in
      label r "name" = Some (ToLower (Win32_Service.Name service))
      /\ label r "display_name" = Some (Win32_Service.DisplayName service)
      /\ label r "process_id" = Some (FormatUint (Win32_Service.ProcessId service))
      /\ label r "run_as" = Some (default "" (Win32_Service.StartName service)))
  /\ (forall (name : string) (cfg : mgr.Config) (st : svc.Status),
        let r := api_info_row name cfg st in
        label r "name" = Some (ToLower name)
        /\ label r "display_name" = Some (mgr.DisplayName cfg)
        /\ label r "process_id" = Some (FormatUint (svc.ProcessId st))
        /\ label r "run_as" = Some (mgr.ServiceStartName cfg))
  /\ (forall n n' : N, FormatUint n = FormatUint n' -> n = n')
  /\ FormatUint 0 = "0".
Proof.
  split; [| split; [| split]].
  - intros service r. subst r. unfold wmi_info_row.
    destruct (Win32_Service.StartName service); repeat split.
  - intros name cfg st r. subst r. repeat split.
  - exact FormatUint_inj.
  - reflexivity.
Qed.

(** ** The WMI query *)

Lemma wmi_queries_app (a b : list Event) :
  wmi_queries (a ++ b) = wmi_queries a ++ wmi_queries b.
Proof. apply omap_app. Qed.

Lemma wmi_queries_Send (rows : list Metric) : wmi_queries (map Send rows) = [].
Proof. induction rows as [|r rows IH]; [done | exact IH]. Qed.

Lemma wmi_queries_service_pass (s : LiveService) : wmi_queries (service_pass s) = [].
Proof.
  unfold service_pass.
  destruct (ls_open s); [done |].
  destruct (ls_config s) as [|cfg]; [done |].
  destruct (ls_query s) as [|st]; [done |].
  apply (wmi_queries_Send (api_service_rows _ _ _ _ _)).
Qed.

Lemma wmi_queries_collect_api (m : ServiceManager) :
  wmi_queries (collect_api m).1 = [].
Proof.
  unfold collect_api.
  destruct (sm_connect m); [done |].
  destruct (sm_list m) as [|l]; [done |].
  cbn [fst].
  change (wmi_queries (flat_map service_pass l ++ [ Disconnect ]) = []).
  rewrite wmi_queries_app. cbn. rewrite app_nil_r.
  induction l as [|s l IH]; [done |].
  cbn [flat_map]. by rewrite wmi_queries_app, wmi_queries_service_pass, IH.
Qed.

Lemma wmi_queries_collect_wmi (c : serviceCollector) query :
  wmi_queries (collect_wmi c query).1 = [ queryWhereClause c ].
Proof.
  unfold collect_wmi.
  destruct (query (queryWhereClause c)) as [|dst]; [done |].
  cbn [fst].
  change (queryWhereClause c
            :: wmi_queries
                 (flat_map (fun service => map Send (wmi_service_rows service)) dst)
          = [ queryWhereClause c ]).
  f_equal. induction dst as [|s dst IH]; [done |].
  cbn [flat_map]. by rewrite wmi_queries_app, wmi_queries_Send, IH.
Qed.

(** X15.  A WMI pass issues exactly one query, whether it succeeds or fails,
    and its where-clause is the one the collector copied from the flag when it
    was built, even if the flag has another value when the pass runs.  With
    WMI disabled the pass issues no query and the where-clause has no effect
    on it. *)
Theorem where_clause_use :
  (forall (built running : Flags) (w : World),
      wmiDisabled running = false ->
      wmi_queries (collect running (NewserviceCollector built) w).1
      = [ serviceWhereClause built ])
  /\ (forall (flags : Flags) (c c' : serviceCollector) (w : World),
        wmiDisabled flags = true ->
        wmi_queries (collect flags c w).1 = []
        /\ collect flags c w = collect flags c' w).
Proof.
  split.
  - intros built running w Hf. unfold collect. rewrite Hf.
    apply wmi_queries_collect_wmi.
  - intros flags c c' w Hf. unfold collect. rewrite Hf.
    split; [apply wmi_queries_collect_api | reflexivity].
Qed.

End Collector.

(** ** Worked examples

    Closed instances of the theorems above, evaluated with [sample_tables]. *)

#[local] Existing Instance sample_tables.

(** C1, as stated, fails in the API branch: for the running service [WinRM]
    the pass sends seven state rows, so the rows other than the [1.0] one are
    six, not seven. *)
Lemma state_rows_api_six_zero :
  let rows := filter (of_desc State) (rows_of (collect_api winrm_manager).1) in
  index apiStateValues (svc.State winrm_status) = "running"
  /\ ~ (filter is_one rows = [ MustNewConstMetric State 1 [ "winrm"; "running" ] ]
        /\ length (filter is_zero rows) = 7).
Proof.
  split; [by vm_compute |].
  intros [_ H]. vm_compute in H. discriminate H.
Qed.

Lemma state_rows_one_hot_witness :
  (let rows := filter (of_desc State) (wmi_service_rows winrm_wmi) in
   filter is_one rows = [ MustNewConstMetric State 1 [ "winrm"; "running" ] ]
   /\ length (filter is_zero rows) = 7 /\ length rows = 8)
  /\ (let rows := filter (of_desc State) (emitted_rows winrm_live) in
      filter is_one rows = [ MustNewConstMetric State 1 [ "winrm"; "running" ] ]
      /\ length (filter is_zero rows) = 6 /\ length rows = 7).
Proof.
  destruct state_rows_one_hot as [Hwmi Hapi]. split.
  - apply (Hwmi winrm_wmi). apply (bool_decide_unpack _). by vm_compute.
  - apply (Hapi "WinRM" winrm_config winrm_status
             (map_to_list apiStateValues) (map_to_list apiStartModeValues)
             "running"); reflexivity.
Defined.

(** C2, as stated, fails in the API branch: the pass over the single service
    of [winrm_manager] sends 25 rows. *)
Lemma api_pass_one_service_not_26 :
  length (rows_of (collect api_flags (NewserviceCollector api_flags) sample_world).1)
  <> 26.
Proof. by vm_compute. Qed.

Lemma rows_per_service_witness :
  length (wmi_service_rows winrm_wmi) = 26
  /\ length (emitted_rows winrm_live) = 25.
Proof.
  destruct rows_per_service as [Hwmi Hapi]. split.
  - apply (Hwmi winrm_wmi).
  - apply (Hapi "WinRM" winrm_config winrm_status
             (map_to_list apiStateValues) (map_to_list apiStartModeValues));
      reflexivity.
Defined.

(** C3, as stated, fails: the WMI entry [odd_wmi] has the raw state
    [Hibernating], which is in no table, and the pass sends its [unknown]
    state row with value 0.0, not 1.0. *)
Lemma unknown_row_not_set :
  let rows := rows_of (collect wmi_flags (NewserviceCollector wmi_flags) sample_world).1 in
  (ToLower (Win32_Service.State odd_wmi) ∉ allStates)
  /\ MustNewConstMetric State 0 [ "odd"; "unknown" ] ∈ rows
  /\ ~ (MustNewConstMetric State 1 [ "odd"; "unknown" ] ∈ rows).
Proof.
  split; [| split].
  - apply (bool_decide_unpack _). by vm_compute.
  - apply (bool_decide_unpack _). by vm_compute.
  - apply (bool_decide_unpack _). by vm_compute.
Qed.

Lemma unmapped_value_all_zero_witness :
  (Forall is_zero (filter (of_desc State) (wmi_service_rows odd_wmi))
   /\ Forall is_zero (filter (of_desc StartMode) (wmi_service_rows odd_wmi))
   /\ Forall is_zero (filter (of_desc Status) (wmi_service_rows odd_wmi)))
  /\ (Forall is_zero (filter (of_desc State) (emitted_rows odd_live))
      /\ Forall is_zero (filter (of_desc StartMode) (emitted_rows odd_live)))
  /\ (collect wmi_flags (NewserviceCollector wmi_flags) sample_world).2 = (None, None)
  /\ (collect_api {| sm_connect := None; sm_list := inr [ odd_live ] |}).2
     = (None, None).
Proof.
  destruct unmapped_value_all_zero as (Hwmi & Hapi & Hpass_wmi & Hpass_api).
  split; [| split; [| split]].
  - destruct (Hwmi odd_wmi) as (H1 & H2 & H3).
    split; [| split].
    + apply H1. apply (bool_decide_unpack _). by vm_compute.
    + apply H2. apply (bool_decide_unpack _). by vm_compute.
    + apply H3. apply (bool_decide_unpack _). by vm_compute.
  - destruct (Hapi "Odd" odd_config odd_status
                (map_to_list apiStateValues) (map_to_list apiStartModeValues))
      as (H1 & H2); [reflexivity | reflexivity |].
    split; [apply H1 | apply H2]; reflexivity.
  - apply (Hpass_wmi (NewserviceCollector wmi_flags) (w_wmi sample_world)
             [ winrm_wmi; odd_wmi ]).
    reflexivity.
  - apply (Hpass_api _ [ odd_live ]); reflexivity.
Defined.

Lemma per_service_failure_skipped_witness :
  rows_of (service_pass locked_live) = []
  /\ rows_of (collect_api mixed_manager).1
     = emitted_rows winrm_live ++ emitted_rows spooler_live
  /\ (collect_api mixed_manager).2 = (None, None).
Proof.
  destruct (per_service_failure_skipped mixed_manager
              [ winrm_live ] [ noconfig_live; spooler_live; noquery_live ]
              locked_live)
    as (H1 & H2 & _ & H4).
  - reflexivity.
  - reflexivity.
  - left. by eexists.
  - split; [exact H1 |]. split; [| exact H4].
    rewrite H2. reflexivity.
Defined.

Lemma wmi_query_failure_aborts_witness :
  rows_of (collect wmi_flags (NewserviceCollector wmi_flags) failing_wmi_world).1 = []
  /\ (collect wmi_flags (NewserviceCollector wmi_flags) failing_wmi_world).2
     = (None, Some "Invalid query")
  /\ (Collect wmi_flags (NewserviceCollector wmi_flags) failing_wmi_world).2
     = Some "Invalid query".
Proof.
  apply (wmi_query_failure_aborts wmi_flags (NewserviceCollector wmi_flags)
           failing_wmi_world "Invalid query"); reflexivity.
Defined.

Lemma wmi_matching_case_insensitive_witness :
  let rows :=
    rows_of (collect wmi_flags (NewserviceCollector wmi_flags) sample_world).1 in
  MustNewConstMetric State 1 [ "winrm"; "running" ] ∈ rows
  /\ MustNewConstMetric StartMode 1 [ "winrm"; "auto" ] ∈ rows
  /\ MustNewConstMetric Status 1 [ "winrm"; "ok" ] ∈ rows.
Proof.
  destruct (wmi_matching_case_insensitive wmi_flags
              (NewserviceCollector wmi_flags) sample_world
              [ winrm_wmi; odd_wmi ] winrm_wmi)
    as (Hs & Hm & Ht).
  - reflexivity.
  - reflexivity.
  - left.
  - split; [| split].
    + apply (Hs "running"); [| reflexivity].
      apply (bool_decide_unpack _). by vm_compute.
    + apply (Hm "auto"); [| reflexivity].
      apply (bool_decide_unpack _). by vm_compute.
    + apply (Ht "ok"); [| reflexivity].
      apply (bool_decide_unpack _). by vm_compute.
Defined.

Lemma start_mode_rows_one_hot_witness :
  (let rows := filter (of_desc StartMode) (wmi_service_rows winrm_wmi) in
   filter is_one rows = [ MustNewConstMetric StartMode 1 [ "winrm"; "auto" ] ]
   /\ length (filter is_zero rows) = 4 /\ length rows = 5)
  /\ (let rows := filter (of_desc StartMode) (emitted_rows spooler_live) in
      filter is_one rows = [ MustNewConstMetric StartMode 1 [ "spooler"; "manual" ] ]
      /\ length (filter is_zero rows) = 4 /\ length rows = 5).
Proof.
  destruct start_mode_rows_one_hot as [Hwmi Hapi]. split.
  - apply (Hwmi winrm_wmi). apply (bool_decide_unpack _). by vm_compute.
  - apply (Hapi "Spooler" _ _ (map_to_list apiStateValues)
             (map_to_list apiStartModeValues) "manual"); reflexivity.
Defined.

Lemma wmi_status_rows_one_hot_rows_witness :
  let rows := filter (of_desc Status) (wmi_service_rows winrm_wmi) in
  filter is_one rows = [ MustNewConstMetric Status 1 [ "winrm"; "ok" ] ]
  /\ length (filter is_zero rows) = 11 /\ length rows = 12.
Proof.
  apply (wmi_status_rows_one_hot_rows winrm_wmi).
  apply (bool_decide_unpack _). by vm_compute.
Defined.

Lemma at_most_one_row_set_witness :
  length (filter is_one (filter (of_desc State) (wmi_service_rows odd_wmi))) <= 1
  /\ length (filter is_one (filter (of_desc StartMode) (emitted_rows odd_live))) <= 1.
Proof.
  destruct at_most_one_row_set as [Hwmi Hapi]. split.
  - apply (Hwmi odd_wmi State).
  - apply (Hapi "Odd" odd_config odd_status (map_to_list apiStateValues)
             (map_to_list apiStartModeValues) StartMode); reflexivity.
Defined.

Lemma failed_pass_sends_nothing_witness :
  rows_of (collect wmi_flags (NewserviceCollector wmi_flags) failing_wmi_world).1 = []
  /\ is_Some (collect_api {| sm_connect := Some "Access is denied.";
                             sm_list := inr [ winrm_live ] |}).2.2.
Proof.
  destruct failed_pass_sends_nothing as (Hall & Hapi & _). split.
  - apply (Hall wmi_flags (NewserviceCollector wmi_flags) failing_wmi_world).
    by eexists.
  - apply Hapi. left. by eexists.
Defined.

Lemma handles_open_after_pass_witness :
  open_handles (collect_api mixed_manager).1 [] ≡ₚ [ "WinRM"; "Spooler" ].
Proof.
  destruct handles_open_after_pass as [H _].
  apply (H mixed_manager
           [ winrm_live; locked_live; noconfig_live; spooler_live; noquery_live ]);
    reflexivity.
Defined.

Lemma every_listed_service_opened_witness :
  opened_names (collect_api mixed_manager).1
  = [ "WinRM"; "Locked"; "NoConfig"; "Spooler"; "NoQuery" ].
Proof.
  apply (every_listed_service_opened mixed_manager
           [ winrm_live; locked_live; noconfig_live; spooler_live; noquery_live ]);
    reflexivity.
Defined.

Lemma pass_row_count_witness :
  length (rows_of (collect_wmi (NewserviceCollector wmi_flags)
                     (w_wmi sample_world)).1) = 52
  /\ length (rows_of (collect_api mixed_manager).1) = 50.
Proof.
  destruct pass_row_count as [Hwmi Hapi]. split.
  - apply (Hwmi (NewserviceCollector wmi_flags) (w_wmi sample_world)
             [ winrm_wmi; odd_wmi ]).
    reflexivity.
  - apply (Hapi mixed_manager
             [ winrm_live; locked_live; noconfig_live; spooler_live; noquery_live ]);
      [reflexivity | reflexivity |].
    repeat constructor.
Defined.

Lemma label_vocabulary_witness :
  label_values "state" (wmi_service_rows winrm_wmi) = allStates
  /\ label_values "start_mode" (emitted_rows winrm_live) ≡ₚ allStartModes.
Proof.
  destruct label_vocabulary as [Hwmi Hapi]. split.
  - apply (Hwmi winrm_wmi).
  - apply (Hapi "WinRM" winrm_config winrm_status (map_to_list apiStateValues)
             (map_to_list apiStartModeValues)); reflexivity.
Defined.

Lemma branches_agree_witness :
  api_start_mode_rows "winrm" winrm_config (map_to_list apiStartModeValues)
  ≡ₚ wmi_start_mode_rows winrm_wmi
  /\ MustNewConstMetric State 0 [ "winrm"; "unknown" ]
       :: api_state_rows "winrm" winrm_status (map_to_list apiStateValues)
     ≡ₚ wmi_state_rows winrm_wmi
  /\ api_status_rows "ODD" = wmi_status_rows odd_wmi.
Proof.
  split; [| split].
  - apply (branches_agree winrm_wmi "winrm" winrm_config winrm_status
             (map_to_list apiStateValues) (map_to_list apiStartModeValues));
      reflexivity.
  - apply (branches_agree winrm_wmi "winrm" winrm_config winrm_status
             (map_to_list apiStateValues) (map_to_list apiStartModeValues));
      reflexivity.
  - apply (branches_agree odd_wmi "ODD" winrm_config winrm_status
             (map_to_list apiStateValues) (map_to_list apiStartModeValues));
      [reflexivity | reflexivity | reflexivity |].
    apply (bool_decide_unpack _). by vm_compute.
Defined.

Lemma info_row_labels_witness :
  label (wmi_info_row odd_wmi) "run_as" = Some ""
  /\ label (wmi_info_row winrm_wmi) "process_id" = Some "1234"
  /\ 1234%N = 1234%N.
Proof.
  destruct info_row_labels as (Hwmi & _ & Hinj & _).
  split; [| split].
  - apply (Hwmi odd_wmi).
  - apply (Hwmi winrm_wmi).
  - apply (Hinj 1234%N 1234%N). reflexivity.
Defined.

Lemma where_clause_use_witness :
  wmi_queries
    (collect wmi_flags
       (NewserviceCollector
          {| serviceWhereClause := "Name='WinRM'"; wmiDisabled := false |})
       sample_world).1
  = [ "Name='WinRM'" ]
  /\ wmi_queries (collect api_flags (NewserviceCollector api_flags) sample_world).1
     = [].
Proof.
  destruct where_clause_use as [Hwmi Hapi]. split.
  - apply (Hwmi {| serviceWhereClause := "Name='WinRM'"; wmiDisabled := false |}
             wmi_flags sample_world).
    reflexivity.
  - apply (Hapi api_flags (NewserviceCollector api_flags)
             (NewserviceCollector api_flags) sample_world).
    reflexivity.
Defined.

Lemma name_label_lower_cased_witness :
  rows_of (collect_wmi (NewserviceCollector wmi_flags) (w_wmi sample_world)).1
  = wmi_service_rows winrm_wmi ++ wmi_service_rows odd_wmi
  /\ rows_of (collect_api winrm_manager).1 = emitted_rows winrm_live
  /\ ToLower "WinRM" = "winrm"
  /\ Forall (fun r => label r "name" = Some "éclair") (wmi_service_rows eclair_wmi).
Proof.
  destruct name_label_lower_cased
    as (Hwmi & _ & _ & Hpass_wmi & Hpass_api & Hascii & _).
  split; [| split; [| split]].
  - rewrite (Hpass_wmi (NewserviceCollector wmi_flags) (w_wmi sample_world)
               [ winrm_wmi; odd_wmi ]); reflexivity.
  - rewrite (Hpass_api winrm_manager [ winrm_live ]); reflexivity.
  - destruct (Hascii "WinRM") as [-> _]; reflexivity.
  - apply (Hwmi eclair_wmi).
Defined.

